(** * The Render node of libnodegl (src/libnodegl/node_render.c)

    A shallow embedding of the render node's life-cycle callbacks
    ([render_init], [render_uninit], [render_update], [render_draw]) and of
    their helpers ([check_attributes], [init_attributes], the four draw
    procedures), followed by the properties of the node's specification.

    The C code works on a [struct render_priv] that points into a graph of
    shared nodes (one geometry, many buffers).  The embedding keeps that
    sharing: nodes live in a store indexed by their address, and the callbacks
    are state transformers over the store, the private data of the render node
    and the trace of calls that leave this file (logging, the pass, the node
    API and OpenGL). *)

From Stdlib Require Import ZArith List String Bool Lia PrimFloat.
Import ListNotations.

Local Open Scope string_scope.
Local Open Scope list_scope.
Local Open Scope Z_scope.

(** ** Nodes and the ordered map of named nodes *)

(** A non-null [struct ngl_node *]; a nullable pointer is an [option node]. *)
Definition node := positive.

Module Hmap.

(** Modelled from the spec: hmap.h and its implementation are not part of
    this file.  The container is the "ordered key/value container" of the
    specification: keys are unique names, [ngli_hmap_next] enumerates the
    entries in a fixed order, and [ngli_hmap_set] has insert-or-overwrite
    semantics.  An entry is a [(key, data)] pair. *)
Definition hmap := list (string * node).

Definition ngli_hmap_create : hmap := [].

(** The entries in the order in which repeated [ngli_hmap_next] yields them. *)
Definition entries (h : hmap) : list (string * node) := h.

Fixpoint ngli_hmap_set (h : hmap) (key : string) (data : node) : hmap :=
  match h with
  | [] => [(key, data)]
  | (k, d) :: h' =>
      if String.eqb k key then (key, data) :: h'
      else (k, d) :: ngli_hmap_set h' key data
  end.

Fixpoint ngli_hmap_get (h : hmap) (key : string) : option node :=
  match h with
  | [] => None
  | (k, d) :: h' => if String.eqb k key then Some d else ngli_hmap_get h' key
  end.

Definition keys (h : hmap) : list string := map fst h.

(** Names are unique in a well-formed map. *)
Definition wf (h : hmap) : Prop := NoDup (keys h).

End Hmap.
Export Hmap.

(** ** Data model *)

(** The fields of [struct buffer_priv] this file reads.  [buffer_refcount] is
    the count of shared references taken with [ngli_node_buffer_ref]. *)
Record buffer_priv := {
  count : Z;
  data_format : Z;
  block : option node;
  buffer_id : Z;
  buffer_refcount : Z;
}.

(** The fields of [struct geometry_priv] this file reads. *)
Record geometry_priv := {
  vertices_buffer : option node;
  uvcoords_buffer : option node;
  normals_buffer : option node;
  indices_buffer : option node;
  topology : Z;
}.

(** [struct pass_params], as filled in by [render_init]. *)
Record pass_params := {
  params_label : string;
  params_program : option node;
  params_textures : option hmap;
  params_uniforms : option hmap;
  params_blocks : option hmap;
  params_attributes : option hmap;
  params_instance_attributes : option hmap;
}.

(** The value of the function pointer [render_priv.draw]: one of the four
    static draw procedures of the file. *)
Inductive draw_fn :=
| fn_draw_elements
| fn_draw_elements_instanced
| fn_draw_arrays
| fn_draw_arrays_instanced.

(** [struct render_priv].  [pass] is the owned [struct pass]; all that is
    known of it here is the parameters it was initialised with, if any. *)
Record render_priv := {
  geometry : node;
  program : option node;
  textures : option hmap;
  uniforms : option hmap;
  blocks : option hmap;
  attributes : option hmap;
  instance_attributes : option hmap;
  nb_instances : Z;

  pass_attributes : option hmap;
  pass : option pass_params;

  has_indices_buffer_ref : Z;
  indices_type : Z;

  draw : option draw_fn;
}.

Definition set_program (v : option node) (s : render_priv) : render_priv :=
  {| geometry := geometry s; program := v; textures := textures s;
     uniforms := uniforms s; blocks := blocks s; attributes := attributes s;
     instance_attributes := instance_attributes s;
     nb_instances := nb_instances s; pass_attributes := pass_attributes s;
     pass := pass s; has_indices_buffer_ref := has_indices_buffer_ref s;
     indices_type := indices_type s; draw := draw s |}.

Definition set_pass_attributes (v : option hmap) (s : render_priv) : render_priv :=
  {| geometry := geometry s; program := program s; textures := textures s;
     uniforms := uniforms s; blocks := blocks s; attributes := attributes s;
     instance_attributes := instance_attributes s;
     nb_instances := nb_instances s; pass_attributes := v;
     pass := pass s; has_indices_buffer_ref := has_indices_buffer_ref s;
     indices_type := indices_type s; draw := draw s |}.

Definition set_pass (v : option pass_params) (s : render_priv) : render_priv :=
  {| geometry := geometry s; program := program s; textures := textures s;
     uniforms := uniforms s; blocks := blocks s; attributes := attributes s;
     instance_attributes := instance_attributes s;
     nb_instances := nb_instances s; pass_attributes := pass_attributes s;
     pass := v; has_indices_buffer_ref := has_indices_buffer_ref s;
     indices_type := indices_type s; draw := draw s |}.

Definition set_has_indices_buffer_ref (v : Z) (s : render_priv) : render_priv :=
  {| geometry := geometry s; program := program s; textures := textures s;
     uniforms := uniforms s; blocks := blocks s; attributes := attributes s;
     instance_attributes := instance_attributes s;
     nb_instances := nb_instances s; pass_attributes := pass_attributes s;
     pass := pass s; has_indices_buffer_ref := v;
     indices_type := indices_type s; draw := draw s |}.

Definition set_indices_type (v : Z) (s : render_priv) : render_priv :=
  {| geometry := geometry s; program := program s; textures := textures s;
     uniforms := uniforms s; blocks := blocks s; attributes := attributes s;
     instance_attributes := instance_attributes s;
     nb_instances := nb_instances s; pass_attributes := pass_attributes s;
     pass := pass s; has_indices_buffer_ref := has_indices_buffer_ref s;
     indices_type := v; draw := draw s |}.

Definition set_draw (v : option draw_fn) (s : render_priv) : render_priv :=
  {| geometry := geometry s; program := program s; textures := textures s;
     uniforms := uniforms s; blocks := blocks s; attributes := attributes s;
     instance_attributes := instance_attributes s;
     nb_instances := nb_instances s; pass_attributes := pass_attributes s;
     pass := pass s; has_indices_buffer_ref := has_indices_buffer_ref s;
     indices_type := indices_type s; draw := v |}.

(** ** Calls that leave the file *)

Inductive log_level := DEBUG | VERBOSE | INFO | WARNING | ERROR.

(** One argument of a printf-style [LOG] call. *)
Inductive log_arg :=
| arg_str (s : string)
| arg_int (i : Z).

(** What an observer outside the file sees, in program order. *)
Inductive event :=
| EvLog (level : log_level) (fmt : string) (args : list log_arg)
| EvNodeCreate (class_id : Z) (res : option node)
| EvNodeAttachCtx (n : node)
| EvNodeUpdate (n : node) (t : float)
| EvBufferRef (n : node)
| EvBufferUnref (n : node)
| EvPassInit (params : pass_params)
| EvPassUninit
| EvPassUpdate (t : float)
| EvPassBind
| EvPassUnbind
| EvGlBindBuffer (target : Z) (id : Z)
| EvGlDrawElements (mode count type indices : Z)
| EvGlDrawElementsInstanced (mode count type indices instancecount : Z)
| EvGlDrawArrays (mode first count : Z)
| EvGlDrawArraysInstanced (mode first count instancecount : Z).

(** The graphics-API draw invocations among the events. *)
Definition is_draw_call (e : event) : bool :=
  match e with
  | EvGlDrawElements _ _ _ _ | EvGlDrawElementsInstanced _ _ _ _ _
  | EvGlDrawArrays _ _ _ | EvGlDrawArraysInstanced _ _ _ _ => true
  | _ => false
  end.

Definition draw_calls (tr : list event) : list event := filter is_draw_call tr.

(** ** Machine state *)

(** The private data of the render node under consideration, the store of
    the nodes it points to, the feature mask of the GL context and the trace
    so far.  Several render nodes sharing a geometry are several [priv]s run
    against the same stores. *)
Record machine := {
  priv : render_priv;
  geometries : node -> geometry_priv;
  buffers : node -> buffer_priv;
  features : Z;
  trace : list event;
}.

Definition with_priv (f : render_priv -> render_priv) (m : machine) : machine :=
  {| priv := f (priv m); geometries := geometries m; buffers := buffers m;
     features := features m; trace := trace m |}.

Definition with_buffers (b : node -> buffer_priv) (m : machine) : machine :=
  {| priv := priv m; geometries := geometries m; buffers := b;
     features := features m; trace := trace m |}.

Definition with_geometries (g : node -> geometry_priv) (m : machine) : machine :=
  {| priv := priv m; geometries := g; buffers := buffers m;
     features := features m; trace := trace m |}.

Definition emit (e : event) (m : machine) : machine :=
  {| priv := priv m; geometries := geometries m; buffers := buffers m;
     features := features m; trace := trace m ++ [e] |}.

Definition upd {A} (f : node -> A) (n : node) (a : A) : node -> A :=
  fun n' => if Pos.eqb n' n then a else f n'.

Definition set_refcount (v : Z) (b : buffer_priv) : buffer_priv :=
  {| count := count b; data_format := data_format b; block := block b;
     buffer_id := buffer_id b; buffer_refcount := v |}.

(** ** Statements with early return *)

(** Running a statement either falls through to the next one with a value,
    executes a C [return], or dereferences a null pointer (undefined
    behaviour, kept apart from every defined result). *)
Inductive outcome (R A : Type) :=
| Next (a : A) (m : machine)
| Ret (r : R) (m : machine)
| Fault.
Arguments Next {R A} a m.
Arguments Ret {R A} r m.
Arguments Fault {R A}.

Definition body (R A : Type) := machine -> outcome R A.

(** The result of a whole function call. *)
Inductive result (R : Type) :=
| Ok (r : R) (m : machine)
| Crash.
Arguments Ok {R} r m.
Arguments Crash {R}.

Definition cfun (R : Type) := machine -> result R.

Definition next {R A} (a : A) : body R A := fun m => Next a m.
Definition return_ {R A} (r : R) : body R A := fun m => Ret r m.
Definition fault {R A} : body R A := fun _ => Fault.

Definition bind {R A B} (c : body R A) (k : A -> body R B) : body R B :=
  fun m => match c m with
           | Next a m' => k a m'
           | Ret r m' => Ret r m'
           | Fault => Fault
           end.

Declare Scope stmt_scope.
Delimit Scope stmt_scope with stmt.
Notation "x <- c1 ;; c2" := (bind c1 (fun x => c2))
  (at level 61, c1 at next level, right associativity) : stmt_scope.
Notation "c1 ;; c2" := (bind c1 (fun _ => c2))
  (at level 61, right associativity) : stmt_scope.
Local Open Scope stmt_scope.

(** A function, from its body: the call ends at a [return], or, for a
    [void] function, at the end of the body.  No [int] function of the file
    falls off its end. *)
Definition func {R} (b : body R R) : cfun R :=
  fun m => match b m with
           | Next r m' => Ok r m'
           | Ret r m' => Ok r m'
           | Fault => Crash
           end.

(** A call of a function of the file from inside a body. *)
Definition call {R R'} (f : cfun R) : body R' R :=
  fun m => match f m with
           | Ok r m' => Next r m'
           | Crash => Fault
           end.

Definition when {R} (c : bool) (b : body R unit) : body R unit :=
  if c then b else next tt.

Fixpoint foreach {R A} (l : list A) (f : A -> body R unit) : body R unit :=
  match l with
  | [] => next tt
  | x :: l' => f x ;; foreach l' f
  end.

Definition get {R} : body R machine := fun m => Next m m.
Definition modify {R} (f : machine -> machine) : body R unit :=
  fun m => Next tt (f m).

(** [p->field] for a nullable [p]. *)
Definition deref {R} (p : option node) : body R node :=
  match p with
  | Some n => next n
  | None => fault
  end.

Definition is_null {A} (p : option A) : bool :=
  match p with None => true | Some _ => false end.

Definition LOG {R} (level : log_level) (fmt : string) (args : list log_arg)
  : body R unit :=
  modify (emit (EvLog level fmt args)).

(** ** The environment of the file

    Everything [node_render.c] uses without defining it: constants of
    glcontext.h and nodegl.h, and what the callees outside the file answer.
    A callee's answer is a function of its arguments; the theorems below
    quantify over the whole record, so they hold for every behaviour of the
    callees. *)
Record externals := {
  NGLI_FEATURE_DRAW_INSTANCED : Z;
  NGLI_FEATURE_INSTANCED_ARRAY : Z;
  NGL_NODE_PROGRAM : Z;
  (** [ngl_node_create]: the new node, or NULL. *)
  node_create_result : Z -> option node;
  node_attach_ctx_result : node -> Z;
  (** [ngli_node_update] on the geometry: its return code and what it does
      to the shared nodes. *)
  node_update_result : node -> float -> Z;
  node_update_effect : node -> float -> machine -> machine;
  buffer_ref_result : node -> Z;
  (** [ngli_hmap_create] answers NULL when this is [false]. *)
  hmap_create_ok : bool;
  hmap_set_result : hmap -> string -> node -> Z;
  pass_init_result : pass_params -> Z;
  pass_update_result : float -> Z;
  pass_bind_result : Z;
  pass_unbind_result : Z;
  (** The GL type [ngli_format_get_gl_texture_format] stores through its
      last argument. *)
  gl_type_of_format : Z -> Z;
  ngli_topology_get_gl_topology : Z -> Z;
}.

(** glincludes.h: the value OpenGL assigns to the enum. *)
Definition GL_ELEMENT_ARRAY_BUFFER : Z := 0x8893.

Section Render.

Variable E : externals.

(** *** Callees outside the file *)

Definition ngl_node_create {R} (class_id : Z) : body R (option node) :=
  let res := node_create_result E class_id in
  modify (emit (EvNodeCreate class_id res)) ;; next res.

Definition ngli_node_attach_ctx {R} (n : node) : body R Z :=
  modify (emit (EvNodeAttachCtx n)) ;; next (node_attach_ctx_result E n).

Definition ngli_node_update {R} (n : node) (t : float) : body R Z :=
  modify (fun m =>
            let m' := node_update_effect E n t m in
            emit (EvNodeUpdate n t)
                 (with_geometries (geometries m') (with_buffers (buffers m') m))) ;;
  next (node_update_result E n t).

(** Modelled from the spec: node_buffer.c is not part of this file.
    Acquiring a shared reference raises the buffer's reference count by
    exactly one; a failed acquisition (negative code) acquires nothing.
    [EvBufferRef] records an acquisition. *)
Definition ngli_node_buffer_ref {R} (n : node) : body R Z :=
  let ret := buffer_ref_result E n in
  when (negb (ret <? 0))
       (modify (fun m =>
                  let b := buffers m n in
                  emit (EvBufferRef n)
                       (with_buffers
                          (upd (buffers m) n
                               (set_refcount (buffer_refcount b + 1) b)) m))) ;;
  next ret.

(** Modelled from the spec: releasing a shared reference lowers the count
    by exactly one.  The callee reads through its argument. *)
Definition ngli_node_buffer_unref {R} (p : option node) : body R unit :=
  n <- deref p ;;
  modify (fun m =>
            let b := buffers m n in
            emit (EvBufferUnref n)
                 (with_buffers
                    (upd (buffers m) n
                         (set_refcount (buffer_refcount b - 1) b)) m)).

(** [s->pass_attributes = ngli_hmap_create()] *)
Definition new_pass_attributes {R} : body R unit :=
  modify (with_priv (set_pass_attributes
                       (if hmap_create_ok E then Some ngli_hmap_create else None))).

(** [ngli_hmap_set(s->pass_attributes, key, data)]: the map is updated in
    place unless the callee reports a failure. *)
Definition hmap_set_pass_attributes {R} (key : string) (data : node) : body R Z :=
  m <- get ;;
  match pass_attributes (priv m) with
  | None => fault
  | Some h =>
      let ret := hmap_set_result E h key data in
      when (negb (ret <? 0))
           (modify (with_priv (set_pass_attributes
                                 (Some (ngli_hmap_set h key data))))) ;;
      next ret
  end.

(** [ngli_hmap_freep(&s->pass_attributes)] *)
Definition free_pass_attributes {R} : body R unit :=
  modify (with_priv (set_pass_attributes None)).

(** Modelled from the spec: pass.h and pass.c are not part of this file.
    The pass is consumed through its contract (init with a descriptor,
    update, bind, unbind, uninit, each of the first four answering a code);
    of its state the model keeps the descriptor it was initialised with. *)
Definition ngli_pass_init {R} (params : pass_params) : body R Z :=
  let ret := pass_init_result E params in
  modify (emit (EvPassInit params)) ;;
  when (negb (ret <? 0)) (modify (with_priv (set_pass (Some params)))) ;;
  next ret.

Definition ngli_pass_uninit {R} : body R unit :=
  modify (fun m => emit EvPassUninit (with_priv (set_pass None) m)).

Definition ngli_pass_update {R} (t : float) : body R Z :=
  modify (emit (EvPassUpdate t)) ;; next (pass_update_result E t).

Definition ngli_pass_bind {R} : body R Z :=
  modify (emit EvPassBind) ;; next (pass_bind_result E).

Definition ngli_pass_unbind {R} : body R Z :=
  modify (emit EvPassUnbind) ;; next (pass_unbind_result E).

Definition ngli_glBindBuffer {R} (target id : Z) : body R unit :=
  modify (emit (EvGlBindBuffer target id)).

Definition ngli_glDrawElements {R} (mode cnt type indices : Z) : body R unit :=
  modify (emit (EvGlDrawElements mode cnt type indices)).

Definition ngli_glDrawElementsInstanced {R}
  (mode cnt type indices instancecount : Z) : body R unit :=
  modify (emit (EvGlDrawElementsInstanced mode cnt type indices instancecount)).

Definition ngli_glDrawArrays {R} (mode first cnt : Z) : body R unit :=
  modify (emit (EvGlDrawArrays mode first cnt)).

Definition ngli_glDrawArraysInstanced {R}
  (mode first cnt instancecount : Z) : body R unit :=
  modify (emit (EvGlDrawArraysInstanced mode first cnt instancecount)).

(** *** The draw procedures *)

Definition draw_elements : cfun unit := func (
  m <- get ;;
  let render := priv m in
  let geom := geometries m (geometry render) in
  ib <- deref (indices_buffer geom) ;;
  let indices := buffers m ib in
  let gl_topology := ngli_topology_get_gl_topology E (topology geom) in
  ngli_glBindBuffer GL_ELEMENT_ARRAY_BUFFER (buffer_id indices) ;;
  ngli_glDrawElements gl_topology (count indices) (indices_type render) 0).

Definition draw_elements_instanced : cfun unit := func (
  m <- get ;;
  let render := priv m in
  let geom := geometries m (geometry render) in
  ib <- deref (indices_buffer geom) ;;
  let indices := buffers m ib in
  let gl_topology := ngli_topology_get_gl_topology E (topology geom) in
  ngli_glBindBuffer GL_ELEMENT_ARRAY_BUFFER (buffer_id indices) ;;
  ngli_glDrawElementsInstanced gl_topology (count indices)
                               (indices_type render) 0 (nb_instances render)).

Definition draw_arrays : cfun unit := func (
  m <- get ;;
  let render := priv m in
  let geom := geometries m (geometry render) in
  vb <- deref (vertices_buffer geom) ;;
  let vertices := buffers m vb in
  let gl_topology := ngli_topology_get_gl_topology E (topology geom) in
  ngli_glDrawArrays gl_topology 0 (count vertices)).

Definition draw_arrays_instanced : cfun unit := func (
  m <- get ;;
  let render := priv m in
  let geom := geometries m (geometry render) in
  vb <- deref (vertices_buffer geom) ;;
  let vertices := buffers m vb in
  let gl_topology := ngli_topology_get_gl_topology E (topology geom) in
  ngli_glDrawArraysInstanced gl_topology 0 (count vertices)
                             (nb_instances render)).

(** Calling through the function pointer. *)
Definition draw_code (f : draw_fn) : cfun unit :=
  match f with
  | fn_draw_elements => draw_elements
  | fn_draw_elements_instanced => draw_elements_instanced
  | fn_draw_arrays => draw_arrays
  | fn_draw_arrays_instanced => draw_arrays_instanced
  end.

(** *** Attribute validation *)

Definition check_attributes (attrs : option hmap) (per_instance : Z)
  : cfun Z := func (
  match attrs with
  | None => return_ 0
  | Some attrs =>
      foreach (entries attrs) (fun entry =>
        let '(key, anode) := entry in
        m <- get ;;
        let s := priv m in
        let buffer := buffers m anode in
        if negb (per_instance =? 0) then
          when (negb (count buffer =? nb_instances s)) (
            LOG ERROR
                "attribute buffer %s count (%d) does not match instance count (%d)"
                [arg_str key; arg_int (count buffer); arg_int (nb_instances s)] ;;
            return_ (-1))
        else
          let geom := geometries m (geometry s) in
          vb <- deref (vertices_buffer geom) ;;
          let vertices := buffers m vb in
          when (negb (count buffer =? count vertices)) (
            LOG ERROR
                "attribute buffer %s count (%d) does not match vertices count (%d)"
                [arg_str key; arg_int (count buffer); arg_int (count vertices)] ;;
            return_ (-1))) ;;
      return_ 0
  end).

(** *** Attribute aggregation *)

(** The table pairs a reserved name with a field of [struct geometry_priv]
    (an [offsetof] in C, the field's reader here). *)
Definition attrib_const_map : list (string * (geometry_priv -> option node)) :=
  [ ("ngl_position", vertices_buffer);
    ("ngl_uvcoord",  uvcoords_buffer);
    ("ngl_normal",   normals_buffer) ].

Definition init_attributes : cfun Z := func (
  new_pass_attributes ;;
  m <- get ;;
  when (is_null (pass_attributes (priv m))) (return_ (-1)) ;;
  match attributes (priv m) with
  | Some attrs =>
      foreach (entries attrs) (fun entry =>
        let '(key, anode) := entry in
        ret <- hmap_set_pass_attributes key anode ;;
        when (ret <? 0) (return_ ret))
  | None => next tt
  end ;;
  foreach attrib_const_map (fun row =>
    let '(const_name, offset) := row in
    m <- get ;;
    let geom := geometries m (geometry (priv m)) in
    match offset geom with
    | None => next tt
    | Some anode =>
        ret <- hmap_set_pass_attributes const_name anode ;;
        when (ret <? 0) (return_ ret)
    end) ;;
  return_ 0).

(** *** Life-cycle callbacks *)

Definition render_init (label : string) : cfun Z := func (
  m <- get ;;
  let s := priv m in
  (* Instancing checks *)
  when (negb (nb_instances s =? 0)
        && (Z.land (features m) (NGLI_FEATURE_DRAW_INSTANCED E) =? 0)) (
    LOG ERROR "context does not support instanced draws" [] ;;
    return_ (-1)) ;;
  when (negb (is_null (instance_attributes s))
        && (Z.land (features m) (NGLI_FEATURE_INSTANCED_ARRAY E) =? 0)) (
    LOG ERROR "context does not support instanced arrays" [] ;;
    return_ (-1)) ;;
  ret <- call (check_attributes (attributes s) 0) ;;
  when (ret <? 0) (return_ ret) ;;
  ret <- call (check_attributes (instance_attributes s) 1) ;;
  when (ret <? 0) (return_ ret) ;;
  when (is_null (program s)) (
    p <- ngl_node_create (NGL_NODE_PROGRAM E) ;;
    modify (with_priv (set_program p)) ;;
    match p with
    | None => return_ (-1)
    | Some p =>
        ret <- ngli_node_attach_ctx p ;;
        when (ret <? 0) (return_ ret)
    end) ;;
  m <- get ;;
  match indices_buffer (geometries m (geometry (priv m))) with
  | Some ib =>
      ret <- ngli_node_buffer_ref ib ;;
      when (ret <? 0) (return_ ret) ;;
      modify (with_priv (set_has_indices_buffer_ref 1)) ;;
      m <- get ;;
      let indices := buffers m ib in
      when (negb (is_null (block indices))) (
        LOG ERROR
            "geometry indices buffers referencing a block are not supported" [] ;;
        return_ (-1)) ;;
      modify (with_priv (set_indices_type
                           (gl_type_of_format E (data_format indices))))
  | None => next tt
  end ;;
  ret <- call init_attributes ;;
  when (ret <? 0) (return_ ret) ;;
  m <- get ;;
  let s := priv m in
  let params := {|
    params_label := label;
    params_program := program s;
    params_textures := textures s;
    params_uniforms := uniforms s;
    params_blocks := blocks s;
    params_attributes := pass_attributes s;
    params_instance_attributes := instance_attributes s;
  |} in
  ret <- ngli_pass_init params ;;
  when (ret <? 0) (return_ ret) ;;
  m <- get ;;
  (if negb (is_null (indices_buffer (geometries m (geometry (priv m))))) then
     modify (with_priv (set_draw
       (Some (if 0 <? nb_instances (priv m)
              then fn_draw_elements_instanced else fn_draw_elements))))
   else
     modify (with_priv (set_draw
       (Some (if 0 <? nb_instances (priv m)
              then fn_draw_arrays_instanced else fn_draw_arrays))))) ;;
  return_ 0).

Definition render_uninit : cfun unit := func (
  free_pass_attributes ;;
  ngli_pass_uninit ;;
  m <- get ;;
  when (negb (has_indices_buffer_ref (priv m) =? 0)) (
    let geom := geometries m (geometry (priv m)) in
    ngli_node_buffer_unref (indices_buffer geom))).

Definition render_update (t : float) : cfun Z := func (
  m <- get ;;
  ret <- ngli_node_update (geometry (priv m)) t ;;
  when (ret <? 0) (return_ ret) ;;
  ret <- ngli_pass_update t ;;
  return_ ret).

Definition render_draw : cfun unit := func (
  ret <- ngli_pass_bind ;;
  when (ret <? 0) (LOG ERROR "pass upload data error" []) ;;
  m <- get ;;
  match draw (priv m) with
  | None => fault
  | Some f => call (draw_code f)
  end ;;
  ret <- ngli_pass_unbind ;;
  when (ret <? 0) (LOG ERROR "could not unbind pass" [])).

End Render.

(** * Vocabulary of the properties

    The definitions the statements below are written with: what the callbacks
    leave behind, the conditions of the specification, and a concrete scene
    to evaluate them on. *)

(** The first entry whose buffer count differs from [expected], with that
    count. *)
Fixpoint first_mismatch (cnt : node -> Z) (expected : Z)
  (l : list (string * node)) : option (string * Z) :=
  match l with
  | [] => None
  | (key, anode) :: l' =>
      if cnt anode =? expected then first_mismatch cnt expected l'
      else Some (key, cnt anode)
  end.

Definition buffer_count (m : machine) (n : node) : Z := count (buffers m n).

Definition instance_mismatch_log (key : string) (c expected : Z) : event :=
  EvLog ERROR "attribute buffer %s count (%d) does not match instance count (%d)"
        [arg_str key; arg_int c; arg_int expected].

Definition vertices_mismatch_log (key : string) (c expected : Z) : event :=
  EvLog ERROR "attribute buffer %s count (%d) does not match vertices count (%d)"
        [arg_str key; arg_int c; arg_int expected].

(** What the validation of a present map answers, given the log line to use
    and the expected count. *)
Definition verdict (logline : string -> Z -> Z -> event) (expected : Z)
  (m : machine) (h : hmap) : result Z :=
  match first_mismatch (buffer_count m) expected (entries h) with
  | None => Ok 0 m
  | Some (key, c) => Ok (-1) (emit (logline key c expected) m)
  end.

(** The rows of a table whose geometry field is not null, as entries. *)
Definition present (g : geometry_priv)
  (rows : list (string * (geometry_priv -> option node))) : list (string * node) :=
  flat_map (fun row : string * (geometry_priv -> option node) =>
              let '(const_name, offset) := row in
              match offset g with
              | Some anode => [(const_name, anode)]
              | None => []
              end) rows.

Definition builtin_entries (g : geometry_priv) : list (string * node) :=
  present g attrib_const_map.

(** Every insertion [init_attributes] attempts, in order: the user's entries,
    then the builtin slots that are not null. *)
Definition insertions (attrs : option hmap) (g : geometry_priv)
  : list (string * node) :=
  match attrs with Some h => entries h | None => [] end ++ builtin_entries g.

(** Inserting a list of entries with overwrite, all insertions succeeding. *)
Definition set_entries (h : hmap) (l : list (string * node)) : hmap :=
  fold_left (fun acc e => ngli_hmap_set acc (fst e) (snd e)) l h.

(** The same with the callee's answers: the code of the first failed
    insertion and the map at that point, or 0 and the final map. *)
Fixpoint set_all (E : externals) (h : hmap) (l : list (string * node)) : Z * hmap :=
  match l with
  | [] => (0, h)
  | (key, data) :: l' =>
      let ret := hmap_set_result E h key data in
      if ret <? 0 then (ret, h) else set_all E (ngli_hmap_set h key data) l'
  end.

Definition put_pass_attributes (h : hmap) (m : machine) : machine :=
  with_priv (set_pass_attributes (Some h)) m.

Definition default_program (E : externals) (s : render_priv) : option node :=
  match program s with
  | Some p => Some p
  | None => node_create_result E (NGL_NODE_PROGRAM E)
  end.

Definition default_program_events (E : externals) (s : render_priv) : list event :=
  match program s with
  | Some _ => []
  | None =>
      let p := node_create_result E (NGL_NODE_PROGRAM E) in
      EvNodeCreate (NGL_NODE_PROGRAM E) p ::
      match p with Some p' => [EvNodeAttachCtx p'] | None => [] end
  end.

Definition acquire (n : node) (b : node -> buffer_priv) : node -> buffer_priv :=
  upd b n (set_refcount (buffer_refcount (b n) + 1) (b n)).

Definition init_params (E : externals) (label : string) (m : machine) : pass_params :=
  let s := priv m in
  {| params_label := label;
     params_program := default_program E s;
     params_textures := textures s;
     params_uniforms := uniforms s;
     params_blocks := blocks s;
     params_attributes :=
       Some (set_entries [] (insertions (attributes s)
                                        (geometries m (geometry s))));
     params_instance_attributes := instance_attributes s |}.

Definition init_done (E : externals) (label : string) (m : machine) : machine :=
  let s := priv m in
  let g := geometries m (geometry s) in
  let params := init_params E label m in
  {| priv :=
       {| geometry := geometry s;
          program := default_program E s;
          textures := textures s;
          uniforms := uniforms s;
          blocks := blocks s;
          attributes := attributes s;
          instance_attributes := instance_attributes s;
          nb_instances := nb_instances s;
          pass_attributes := params_attributes params;
          pass := Some params;
          has_indices_buffer_ref :=
            match indices_buffer g with
            | Some _ => 1
            | None => has_indices_buffer_ref s
            end;
          indices_type :=
            match indices_buffer g with
            | Some ib => gl_type_of_format E (data_format (buffers m ib))
            | None => indices_type s
            end;
          draw :=
            Some (match indices_buffer g with
                  | Some _ => if 0 <? nb_instances s
                              then fn_draw_elements_instanced else fn_draw_elements
                  | None => if 0 <? nb_instances s
                            then fn_draw_arrays_instanced else fn_draw_arrays
                  end) |};
     geometries := geometries m;
     buffers :=
       match indices_buffer g with
       | Some ib => acquire ib (buffers m)
       | None => buffers m
       end;
     features := features m;
     trace :=
       trace m ++ default_program_events E s
             ++ match indices_buffer g with
                | Some ib => [EvBufferRef ib]
                | None => []
                end
             ++ [EvPassInit params] |}.

(** Every test on the way to the end of [render_init], passed. *)
Definition init_passes (E : externals) (label : string) (m : machine) : Prop :=
  let s := priv m in
  let g := geometries m (geometry s) in
  (negb (nb_instances s =? 0)
   && (Z.land (features m) (NGLI_FEATURE_DRAW_INSTANCED E) =? 0)) = false /\
  (negb (is_null (instance_attributes s))
   && (Z.land (features m) (NGLI_FEATURE_INSTANCED_ARRAY E) =? 0)) = false /\
  check_attributes (attributes s) 0 m = Ok 0 m /\
  check_attributes (instance_attributes s) 1 m = Ok 0 m /\
  (program s = None ->
   exists p, node_create_result E (NGL_NODE_PROGRAM E) = Some p /\
             (node_attach_ctx_result E p <? 0) = false) /\
  (forall ib, indices_buffer g = Some ib ->
              (buffer_ref_result E ib <? 0) = false /\
              block (buffers m ib) = None) /\
  hmap_create_ok E = true /\
  (fst (set_all E [] (insertions (attributes s) g)) <? 0) = false /\
  (pass_init_result E (init_params E label m) <? 0) = false.

Definition lacks (feature_mask : Z) (m : machine) : Prop :=
  Z.land (features m) feature_mask = 0.

(** Some buffer of the map has an element count different from [expected]. *)
Definition count_mismatch (m : machine) (attrs : option hmap) (expected : Z)
  : Prop :=
  exists h key anode,
    attrs = Some h /\ In (key, anode) (entries h) /\
    buffer_count m anode <> expected.

Definition vertex_count_mismatch (m : machine) : Prop :=
  exists vb,
    vertices_buffer (geometries m (geometry (priv m))) = Some vb /\
    count_mismatch m (attributes (priv m)) (buffer_count m vb).

Definition instance_count_mismatch (m : machine) : Prop :=
  count_mismatch m (instance_attributes (priv m)) (nb_instances (priv m)).

Definition index_buffer_in_block (m : machine) : Prop :=
  exists ib blk,
    indices_buffer (geometries m (geometry (priv m))) = Some ib /\
    block (buffers m ib) = Some blk.

(** The callees' failures: creating or attaching the default program,
    acquiring the reference on the index buffer, building the derived
    attribute map, initialising the pass. *)
Definition resource_error (E : externals) (label : string) (m : machine) : Prop :=
  let s := priv m in
  let g := geometries m (geometry s) in
  (program s = None /\ node_create_result E (NGL_NODE_PROGRAM E) = None) \/
  (program s = None /\
   exists p, node_create_result E (NGL_NODE_PROGRAM E) = Some p /\
             node_attach_ctx_result E p < 0) \/
  (exists ib, indices_buffer g = Some ib /\ buffer_ref_result E ib < 0) \/
  hmap_create_ok E = false \/
  fst (set_all E [] (insertions (attributes s) g)) < 0 \/
  pass_init_result E (init_params E label m) < 0.

(** The failure condition, for a given reading of "the node is instanced". *)
Definition init_failure (instanced : Z -> Prop) (E : externals) (label : string)
  (m : machine) : Prop :=
  (instanced (nb_instances (priv m)) /\ lacks (NGLI_FEATURE_DRAW_INSTANCED E) m) \/
  (instance_attributes (priv m) <> None /\
   lacks (NGLI_FEATURE_INSTANCED_ARRAY E) m) \/
  vertex_count_mismatch m \/
  instance_count_mismatch m \/
  index_buffer_in_block m \/
  resource_error E label m.

(** What a call added to the trace. *)
Definition events_since (m m' : machine) : list event :=
  skipn (List.length (trace m)) (trace m').

(** The buffers on which a reference was acquired, resp. released. *)
Definition acquisitions (tr : list event) : list node :=
  flat_map (fun e => match e with EvBufferRef n => [n] | _ => [] end) tr.

Definition releases (tr : list event) : list node :=
  flat_map (fun e => match e with EvBufferUnref n => [n] | _ => [] end) tr.

Definition expected_count (m : machine) (per_instance : Z) : option Z :=
  if per_instance =? 0
  then option_map (buffer_count m)
                  (vertices_buffer (geometries m (geometry (priv m))))
  else Some (nb_instances (priv m)).

Definition mismatch_log (per_instance : Z) : string -> Z -> Z -> event :=
  if per_instance =? 0 then vertices_mismatch_log else instance_mismatch_log.

Module Sample.

(** A context with both instancing features, whose callees all succeed. *)
Definition env : externals := {|
  NGLI_FEATURE_DRAW_INSTANCED := 0x1000;
  NGLI_FEATURE_INSTANCED_ARRAY := 0x2000;
  NGL_NODE_PROGRAM := 0x5072676d;
  node_create_result := fun _ => Some 100%positive;
  node_attach_ctx_result := fun _ => 0;
  node_update_result := fun _ _ => 0;
  node_update_effect := fun _ _ m => m;
  buffer_ref_result := fun _ => 0;
  hmap_create_ok := true;
  hmap_set_result := fun _ _ _ => 0;
  pass_init_result := fun _ => 0;
  pass_update_result := fun _ => 0;
  pass_bind_result := 0;
  pass_unbind_result := 0;
  gl_type_of_format := fun f => f;
  ngli_topology_get_gl_topology := fun t => t;
|}.

(** The same context with a pass whose bind and unbind fail. *)
Definition env_bind_fails : externals := {|
  NGLI_FEATURE_DRAW_INSTANCED := 0x1000;
  NGLI_FEATURE_INSTANCED_ARRAY := 0x2000;
  NGL_NODE_PROGRAM := 0x5072676d;
  node_create_result := fun _ => Some 100%positive;
  node_attach_ctx_result := fun _ => 0;
  node_update_result := fun _ _ => 0;
  node_update_effect := fun _ _ m => m;
  buffer_ref_result := fun _ => 0;
  hmap_create_ok := true;
  hmap_set_result := fun _ _ _ => 0;
  pass_init_result := fun _ => 0;
  pass_update_result := fun _ => 0;
  pass_bind_result := -1;
  pass_unbind_result := -1;
  gl_type_of_format := fun f => f;
  ngli_topology_get_gl_topology := fun t => t;
|}.

(** Node 1 is the geometry; 2, 3 and 4 are its vertex, UV and index
    buffers; 5 to 8 are attribute buffers; 9 is a block. *)
Definition buffer (cnt : Z) (blk : option node) : buffer_priv :=
  {| count := cnt; data_format := 7; block := blk; buffer_id := 40;
     buffer_refcount := 0 |}.

Definition sample_buffers (n : node) : buffer_priv :=
  match n with
  | 4%positive => buffer 6 None
  | 6%positive => buffer 4 None
  | 7%positive => buffer 2 None
  | 8%positive => buffer 6 (Some 9%positive)
  | _ => buffer 3 None
  end.

Definition indexed : geometry_priv :=
  {| vertices_buffer := Some 2%positive; uvcoords_buffer := Some 3%positive;
     normals_buffer := None; indices_buffer := Some 4%positive;
     topology := 4 |}.

Definition plain : geometry_priv :=
  {| vertices_buffer := Some 2%positive; uvcoords_buffer := Some 3%positive;
     normals_buffer := None; indices_buffer := None; topology := 4 |}.

Definition block_indexed : geometry_priv :=
  {| vertices_buffer := Some 2%positive; uvcoords_buffer := None;
     normals_buffer := None; indices_buffer := Some 8%positive;
     topology := 4 |}.

(** A render node as the scene-graph builder hands it to [render_init]:
    parameters set, the rest of the private data zeroed. *)
Definition render (attrs instance_attrs : option hmap) (n : Z) : render_priv :=
  {| geometry := 1%positive; program := None; textures := None;
     uniforms := None; blocks := None; attributes := attrs;
     instance_attributes := instance_attrs; nb_instances := n;
     pass_attributes := None; pass := None; has_indices_buffer_ref := 0;
     indices_type := 0; draw := None |}.

Definition scene (g : geometry_priv) (feats : Z) (s : render_priv) : machine :=
  {| priv := s; geometries := fun _ => g; buffers := sample_buffers;
     features := feats; trace := [] |}.

Definition all_features : Z := 0x3000.

(** The indexed geometry drawn in three instances, with a per-instance
    attribute of three elements (buffer 5). *)
Definition instanced : machine :=
  scene indexed all_features
        (render None (Some [("offset", 5%positive)]) 3).

(** [nb_instances = -1], on a context without and with the instancing
    features. *)
Definition negative : machine := scene plain 0 (render None None (-1)).

Definition negative_supported : machine :=
  scene plain all_features (render None None (-1)).

(** No instances asked for, and a per-instance attribute of three elements. *)
Definition stray : machine :=
  scene plain all_features (render None (Some [("offset", 5%positive)]) 0).

(** The plain geometry, not instanced; then the same node after its
    init, once the vertex buffer has six elements and the topology is 1. *)
Definition still : machine := scene plain all_features (render None None 0).

Definition reshaped : geometry_priv :=
  {| vertices_buffer := Some 2%positive; uvcoords_buffer := Some 3%positive;
     normals_buffer := None; indices_buffer := None; topology := 1 |}.

Definition grown (n : node) : buffer_priv :=
  match n with
  | 2%positive => buffer 6 None
  | _ => sample_buffers n
  end.

Definition mutated : machine :=
  with_geometries (fun _ => reshaped)
                  (with_buffers grown (init_done env "render" still)).

(** The geometry whose index buffer references a block. *)
Definition blocked : machine :=
  scene block_indexed all_features (render None None 0).

(** A user attribute declared under the reserved name of the position
    slot; buffer 5 has the vertex count, so validation passes. *)
Definition collision : machine :=
  scene plain all_features
        (render (Some [("ngl_position", 5%positive); ("color", 5%positive)])
                None 0).

End Sample.

(** The aggregate in the words of the specification: a copy of every user
    entry, then each builtin slot, in the fixed order position, UV, normal,
    set under its reserved name if and only if the geometry has it. *)
Definition copy_entries (attrs : option hmap) : hmap :=
  match attrs with
  | Some h => set_entries ngli_hmap_create (entries h)
  | None => ngli_hmap_create
  end.

Definition insert_slot (name : string) (slot : option node) (h : hmap) : hmap :=
  match slot with
  | Some b => ngli_hmap_set h name b
  | None => h
  end.

Definition aggregate (attrs : option hmap) (g : geometry_priv) : hmap :=
  insert_slot "ngl_normal" (normals_buffer g)
    (insert_slot "ngl_uvcoord" (uvcoords_buffer g)
       (insert_slot "ngl_position" (vertices_buffer g) (copy_entries attrs))).

(** The builtin slot a reserved name stands for, if it is not null. *)
Definition builtin_slot (g : geometry_priv) (name : string) : option node :=
  if String.eqb name "ngl_normal" then normals_buffer g
  else if String.eqb name "ngl_uvcoord" then uvcoords_buffer g
  else if String.eqb name "ngl_position" then vertices_buffer g
  else None.

(** The decision table of the specification. *)
Definition draw_table (has_indices instanced : bool) : draw_fn :=
  match has_indices, instanced with
  | true, false => fn_draw_elements
  | true, true => fn_draw_elements_instanced
  | false, false => fn_draw_arrays
  | false, true => fn_draw_arrays_instanced
  end.

Definition has_indices (m : machine) : bool :=
  negb (is_null (indices_buffer (geometries m (geometry (priv m))))).

(** A later call of one of the other callbacks of the node. *)
Inductive callback : machine -> machine -> Prop :=
| cb_update E t r m m' : render_update E t m = Ok r m' -> callback m m'
| cb_draw E m m' : render_draw E m = Ok tt m' -> callback m m'
| cb_uninit m m' : render_uninit m = Ok tt m' -> callback m m'.

Inductive callbacks : machine -> machine -> Prop :=
| cbs_none m : callbacks m m
| cbs_more m m1 m2 : callback m m1 -> callbacks m1 m2 -> callbacks m m2.

(** The machine after a call, and what the call put on the trace. *)
Definition after {R} (f : cfun R) (m : machine) : machine :=
  match f m with
  | Ok _ m' => m'
  | Crash => m
  end.

Definition emitted {R} (f : cfun R) (m : machine) : list event :=
  events_since m (after f m).

(** The life of an initialised node, from the machine [m1] its init left:
    its [render_update] and its [render_draw] run any number of times, with
    any answers of their callees; in between, the rest of the program
    rewrites the geometry and the buffers the node shares, and writes to
    the trace. *)
Inductive later (m1 : machine) : machine -> Prop :=
| later_init : later m1 m1
| later_update E t r m m' :
    later m1 m -> render_update E t m = Ok r m' -> later m1 m'
| later_draw E m m' :
    later m1 m -> render_draw E m = Ok tt m' -> later m1 m'
| later_scene g b m :
    later m1 m -> later m1 (with_geometries g (with_buffers b m))
| later_event e m : later m1 m -> later m1 (emit e m).

Module Frames.

(** A context whose geometry is animated: its update gives the vertex
    buffer six elements and changes the topology to 1. *)
Definition animated : externals := {|
  NGLI_FEATURE_DRAW_INSTANCED := 0x1000;
  NGLI_FEATURE_INSTANCED_ARRAY := 0x2000;
  NGL_NODE_PROGRAM := 0x5072676d;
  node_create_result := fun _ => Some 100%positive;
  node_attach_ctx_result := fun _ => 0;
  node_update_result := fun _ _ => 0;
  node_update_effect :=
    fun _ _ m =>
      with_geometries (fun _ => Sample.reshaped) (with_buffers Sample.grown m);
  buffer_ref_result := fun _ => 0;
  hmap_create_ok := true;
  hmap_set_result := fun _ _ _ => 0;
  pass_init_result := fun _ => 0;
  pass_update_result := fun _ => 0;
  pass_bind_result := 0;
  pass_unbind_result := 0;
  gl_type_of_format := fun f => f;
  ngli_topology_get_gl_topology := fun t => t;
|}.

(** The plain sample node, initialised and then updated once by the
    animated geometry. *)
Definition updated : machine :=
  after (render_update animated PrimFloat.one)
        (init_done Sample.env "render" Sample.still).

(** The instanced sample node, initialised, updated once and drawn once. *)
Definition second_frame : machine :=
  after (render_draw Sample.env)
        (after (render_update Sample.env PrimFloat.one)
               (init_done Sample.env "render" Sample.instanced)).

(** The same once the rest of the program has given every buffer the
    data format 9. *)
Definition reformatted : machine :=
  with_geometries (fun _ => Sample.indexed)
    (with_buffers (fun _ => {| count := 6; data_format := 9; block := None;
                               buffer_id := 40; buffer_refcount := 1 |})
                  second_frame).

End Frames.

(** The buffer a draw procedure reads its count from. *)
Definition draw_buffer (m : machine) (f : draw_fn) : option node :=
  let g := geometries m (geometry (priv m)) in
  match f with
  | fn_draw_elements | fn_draw_elements_instanced => indices_buffer g
  | fn_draw_arrays | fn_draw_arrays_instanced => vertices_buffer g
  end.

(** The draw invocation of procedure [f] in machine [m]: topology and count
    as the geometry and its buffer [b] have them in [m]. *)
Definition draw_call (E : externals) (m : machine) (f : draw_fn) (b : node)
  : event :=
  let s := priv m in
  let mode := ngli_topology_get_gl_topology
                E (topology (geometries m (geometry s))) in
  let cnt := count (buffers m b) in
  match f with
  | fn_draw_elements => EvGlDrawElements mode cnt (indices_type s) 0
  | fn_draw_elements_instanced =>
      EvGlDrawElementsInstanced mode cnt (indices_type s) 0 (nb_instances s)
  | fn_draw_arrays => EvGlDrawArrays mode 0 cnt
  | fn_draw_arrays_instanced =>
      EvGlDrawArraysInstanced mode 0 cnt (nb_instances s)
  end.

(** Everything procedure [f] sends to OpenGL. *)
Definition draw_events (E : externals) (m : machine) (f : draw_fn) (b : node)
  : list event :=
  match f with
  | fn_draw_elements | fn_draw_elements_instanced =>
      [EvGlBindBuffer GL_ELEMENT_ARRAY_BUFFER (buffer_id (buffers m b));
       draw_call E m f b]
  | fn_draw_arrays | fn_draw_arrays_instanced => [draw_call E m f b]
  end.

Definition bind_log (E : externals) : list event :=
  if pass_bind_result E <? 0
  then [EvLog ERROR "pass upload data error" []] else [].

Definition unbind_log (E : externals) : list event :=
  if pass_unbind_result E <? 0
  then [EvLog ERROR "could not unbind pass" []] else [].

Definition emit_all (evs : list event) (m : machine) : machine :=
  {| priv := priv m; geometries := geometries m; buffers := buffers m;
     features := features m; trace := trace m ++ evs |}.

Definition release (n : node) (b : node -> buffer_priv) : node -> buffer_priv :=
  upd b n (set_refcount (buffer_refcount (b n) - 1) (b n)).

(** [render_uninit] on a node whose flag, if set, comes with an index
    buffer: the machine it leaves. *)
Definition uninit_done (m : machine) : machine :=
  let s := priv m in
  let held :=
    if has_indices_buffer_ref s =? 0 then None
    else indices_buffer (geometries m (geometry s)) in
  {| priv := set_pass None (set_pass_attributes None s);
     geometries := geometries m;
     buffers := match held with
                | Some ib => release ib (buffers m)
                | None => buffers m
                end;
     features := features m;
     trace := trace m ++ EvPassUninit ::
                match held with
                | Some ib => [EvBufferUnref ib]
                | None => []
                end |}.

Definition held_buffer (m : machine) : list node :=
  match indices_buffer (geometries m (geometry (priv m))) with
  | Some ib => [ib]
  | None => []
  end.

(** The tests of [render_init] that come before the index buffer, passed. *)
Definition reaches_index_buffer (E : externals) (m : machine) : Prop :=
  let s := priv m in
  (negb (nb_instances s =? 0)
   && (Z.land (features m) (NGLI_FEATURE_DRAW_INSTANCED E) =? 0)) = false /\
  (negb (is_null (instance_attributes s))
   && (Z.land (features m) (NGLI_FEATURE_INSTANCED_ARRAY E) =? 0)) = false /\
  check_attributes (attributes s) 0 m = Ok 0 m /\
  check_attributes (instance_attributes s) 1 m = Ok 0 m /\
  (program s = None ->
   exists p, node_create_result E (NGL_NODE_PROGRAM E) = Some p /\
             (node_attach_ctx_result E p <? 0) = false).

(** ** Vocabulary of the further properties *)

(** The parameters of a render node: what the scene-graph builder sets and
    the callbacks only read. *)
Definition same_params (s s' : render_priv) : Prop :=
  geometry s' = geometry s /\
  textures s' = textures s /\
  uniforms s' = uniforms s /\
  blocks s' = blocks s /\
  attributes s' = attributes s /\
  instance_attributes s' = instance_attributes s /\
  nb_instances s' = nb_instances s.

(** What [render_init] did about the reference on the index buffer:
    nothing, or one acquisition with the flag set. *)
Definition reference_step (m m' : machine) (evs : list event) : Prop :=
  (has_indices_buffer_ref (priv m') = has_indices_buffer_ref (priv m) /\
   buffers m' = buffers m /\ acquisitions evs = []) \/
  (exists ib,
      indices_buffer (geometries m (geometry (priv m))) = Some ib /\
      has_indices_buffer_ref (priv m') = 1 /\
      buffers m' = acquire ib (buffers m) /\
      acquisitions evs = [ib]).

(** Leaving the machine to another render node of the same scene. *)
Definition switch_to (s : render_priv) (m : machine) : machine :=
  with_priv (fun _ => s) m.

(** Two buffers that differ at most in their count of references. *)
Definition same_buffer_data (b b' : buffer_priv) : Prop :=
  count b' = count b /\ data_format b' = data_format b /\
  block b' = block b /\ buffer_id b' = buffer_id b.

Definition pass_inits (tr : list event) : list pass_params :=
  flat_map (fun e => match e with EvPassInit p => [p] | _ => [] end) tr.

Definition node_creations (tr : list event) : list Z :=
  flat_map (fun e => match e with EvNodeCreate c _ => [c] | _ => [] end) tr.

(** What a draw invocation says about instancing. *)
Definition instancing_of (e : event) : option (option Z) :=
  match e with
  | EvGlDrawElementsInstanced _ _ _ _ n => Some (Some n)
  | EvGlDrawArraysInstanced _ _ _ n => Some (Some n)
  | EvGlDrawElements _ _ _ _ => Some None
  | EvGlDrawArrays _ _ _ => Some None
  | _ => None
  end.

Module Pair.

(** A second render node on the indexed sample geometry, not instanced. *)
Definition second : render_priv := Sample.render None None 0.

Definition first_ready : machine := init_done Sample.env "first" Sample.instanced.

Definition both_ready : machine :=
  init_done Sample.env "second" (switch_to second first_ready).

End Pair.

(** The names of the user's attribute map. *)
Definition user_names (s : render_priv) : list string :=
  match attributes s with
  | Some h => keys h
  | None => []
  end.

(** The index type an element draw invocation is given. *)
Definition element_type_of (e : event) : option Z :=
  match e with
  | EvGlDrawElements _ _ type _ => Some type
  | EvGlDrawElementsInstanced _ _ type _ _ => Some type
  | _ => None
  end.

(** * Properties *)

(** ** Attribute validation: the loop of [check_attributes] *)

(** Unfolds the statement combinators and the callees outside the file, and
    leaves the functions of the file folded. *)
Ltac exec :=
  cbv beta iota zeta delta
      [func call bind when next return_ fault get modify deref LOG
       ngl_node_create ngli_node_attach_ctx ngli_node_update
       ngli_node_buffer_ref ngli_node_buffer_unref new_pass_attributes
       hmap_set_pass_attributes free_pass_attributes ngli_pass_init
       ngli_pass_uninit ngli_pass_update ngli_pass_bind ngli_pass_unbind
       ngli_glBindBuffer ngli_glDrawElements ngli_glDrawElementsInstanced
       ngli_glDrawArrays ngli_glDrawArraysInstanced].

Lemma negb_eqb_0 (z : Z) : negb (z =? 0) = true <-> z <> 0.
Proof.
  destruct (Z.eqb_spec z 0); simpl; split; intros; try congruence; auto.
Qed.

Lemma first_mismatch_none cnt expected l :
  first_mismatch cnt expected l = None <->
  Forall (fun e => cnt (snd e) = expected) l.
Proof.
  induction l as [|[k a] l IH]; simpl.
  - split; auto.
  - destruct (Z.eqb_spec (cnt a) expected) as [Heq|Hne].
    + rewrite IH. split; intros H.
      * constructor; auto.
      * inversion H; auto.
    + split; intros H; [discriminate|].
      inversion H; subst; simpl in *; contradiction.
Qed.

Lemma first_mismatch_some cnt expected l key c :
  first_mismatch cnt expected l = Some (key, c) <->
  exists pre anode post,
    l = pre ++ (key, anode) :: post /\
    Forall (fun e => cnt (snd e) = expected) pre /\
    cnt anode = c /\ c <> expected.
Proof.
  induction l as [|[k a] l IH]; simpl.
  - split; [discriminate|].
    intros (pre & anode & post & H & _). destruct pre; discriminate.
  - destruct (Z.eqb_spec (cnt a) expected) as [Heq|Hne].
    + rewrite IH. split.
      * intros (pre & anode & post & -> & Hpre & Hc & Hn).
        exists ((k, a) :: pre), anode, post. repeat split; auto.
      * intros (pre & anode & post & Hl & Hpre & Hc & Hn).
        destruct pre as [|e pre]; simpl in Hl.
        -- inversion Hl; subst. contradiction.
        -- inversion Hl; subst. inversion Hpre; subst.
           exists pre, anode, post. repeat split; auto.
    + split.
      * intros H; inversion H; subst.
        exists [], a, l. repeat split; auto.
      * intros (pre & anode & post & Hl & Hpre & Hc & Hn).
        destruct pre as [|e pre]; simpl in Hl.
        -- inversion Hl; subst. reflexivity.
        -- inversion Hl; subst. inversion Hpre; subst. simpl in *. contradiction.
Qed.

Lemma foreach_cons {R A} (x : A) (l : list A) (f : A -> body R unit) m :
  foreach (x :: l) f m =
  match f x m with
  | Next _ m' => foreach l f m'
  | Ret r m' => Ret r m'
  | Fault => Fault
  end.
Proof. reflexivity. Qed.

Ltac name_loop_body f :=
  match goal with |- context [foreach _ ?b] => set (f := b) end.

Lemma check_attributes_per_instance h per_instance m :
  per_instance <> 0 ->
  check_attributes (Some h) per_instance m =
  verdict instance_mismatch_log (nb_instances (priv m)) m h.
Proof.
  intros Hpi. apply negb_eqb_0 in Hpi.
  unfold check_attributes, verdict, entries, func, bind at 1. rewrite Hpi.
  name_loop_body f.
  assert (Hloop : foreach h f m =
                  match first_mismatch (buffer_count m) (nb_instances (priv m)) h with
                  | None => Next tt m
                  | Some (key, c) =>
                      Ret (-1) (emit (instance_mismatch_log key c
                                        (nb_instances (priv m))) m)
                  end).
  { induction h as [|[key anode] h IH]; [reflexivity|].
    rewrite foreach_cons. simpl first_mismatch. unfold f at 1, buffer_count at 1.
    exec. destruct (count (buffers m anode) =? nb_instances (priv m)); simpl.
    - exact IH.
    - reflexivity. }
  rewrite Hloop.
  destruct (first_mismatch _ _ h) as [[key c]|]; reflexivity.
Qed.

Lemma check_attributes_per_vertex h m vb :
  vertices_buffer (geometries m (geometry (priv m))) = Some vb ->
  check_attributes (Some h) 0 m =
  verdict vertices_mismatch_log (buffer_count m vb) m h.
Proof.
  intros Hvb.
  unfold check_attributes, verdict, entries, func, bind at 1. cbn [negb].
  name_loop_body f.
  assert (Hloop : foreach h f m =
                  match first_mismatch (buffer_count m) (buffer_count m vb) h with
                  | None => Next tt m
                  | Some (key, c) =>
                      Ret (-1) (emit (vertices_mismatch_log key c
                                        (buffer_count m vb)) m)
                  end).
  { induction h as [|[key anode] h IH]; [reflexivity|].
    rewrite foreach_cons. simpl first_mismatch. unfold f at 1, buffer_count at 1 2.
    exec. rewrite Hvb.
    destruct (count (buffers m anode) =? count (buffers m vb)); simpl.
    - exact IH.
    - reflexivity. }
  rewrite Hloop.
  destruct (first_mismatch _ _ h) as [[key c]|]; reflexivity.
Qed.

(** Without a vertex buffer the loop body reads through a null pointer as
    soon as there is an entry. *)
Lemma check_attributes_no_vertices h m :
  vertices_buffer (geometries m (geometry (priv m))) = None ->
  check_attributes (Some h) 0 m =
  match h with [] => Ok 0 m | _ :: _ => Crash end.
Proof.
  intros Hvb. unfold check_attributes, entries, func, bind at 1.
  destruct h as [|[key anode] h]; [reflexivity|].
  rewrite foreach_cons. exec. rewrite Hvb. reflexivity.
Qed.

(** ** Attribute aggregation: the loops of [init_attributes] *)

Lemma set_all_app E h l1 l2 :
  set_all E h (l1 ++ l2) =
  if fst (set_all E h l1) <? 0 then set_all E h l1
  else set_all E (snd (set_all E h l1)) l2.
Proof.
  revert h. induction l1 as [|[k d] l1 IH]; intros h; simpl.
  - reflexivity.
  - destruct (hmap_set_result E h k d <? 0) eqn:Hr; simpl.
    + rewrite Hr. reflexivity.
    + apply IH.
Qed.

Lemma set_all_ok E l : forall h,
  (fst (set_all E h l) <? 0) = false ->
  set_all E h l = (0, set_entries h l).
Proof.
  induction l as [|[k d] l IH]; intros h H; simpl in *.
  - reflexivity.
  - destruct (hmap_set_result E h k d <? 0) eqn:Hr; simpl in *.
    + congruence.
    + apply IH; assumption.
Qed.

Section Aggregation.

Variable E : externals.

Let insert_or_return (key : string) (anode : node) : body Z unit :=
  (ret <- hmap_set_pass_attributes E key anode ;;
   when (ret <? 0) (return_ ret))%stmt.

Lemma insert_or_return_eq key anode h m :
  pass_attributes (priv m) = Some h ->
  insert_or_return key anode m =
  let ret := hmap_set_result E h key anode in
  if ret <? 0 then Ret ret m
  else Next tt (put_pass_attributes (ngli_hmap_set h key anode) m).
Proof.
  intros Hpa. unfold insert_or_return. exec. rewrite Hpa. cbv zeta.
  destruct (hmap_set_result E h key anode <? 0) eqn:Hr;
    cbv beta iota delta [negb]; rewrite Hr; reflexivity.
Qed.

Lemma put_put h1 h2 m :
  put_pass_attributes h2 (put_pass_attributes h1 m) = put_pass_attributes h2 m.
Proof. reflexivity. Qed.

(** The copy loop over the user's entries. *)
Lemma copy_loop l : forall h m,
  pass_attributes (priv m) = Some h ->
  foreach l (fun entry : string * node =>
               let '(key, anode) := entry in insert_or_return key anode) m =
  let r := set_all E h l in
  if fst r <? 0 then Ret (fst r) (put_pass_attributes (snd r) m)
  else Next tt (put_pass_attributes (snd r) m).
Proof.
  induction l as [|[key anode] l IH]; intros h m Hpa.
  - simpl. destruct m as [s g b f t]. destruct s. simpl in *. subst.
    reflexivity.
  - rewrite foreach_cons, (insert_or_return_eq _ _ h) by assumption.
    simpl set_all. cbv zeta.
    destruct (hmap_set_result E h key anode <? 0) eqn:Hr.
    + simpl. rewrite Hr.
      destruct m as [s g b f t]. destruct s. simpl in *. subst. reflexivity.
    + rewrite (IH (ngli_hmap_set h key anode)) by reflexivity.
      cbv zeta. rewrite !put_put. reflexivity.
Qed.

(** The loop over the table of builtin slots. *)
Lemma builtin_loop rows : forall h m,
  pass_attributes (priv m) = Some h ->
  foreach rows (fun row : string * (geometry_priv -> option node) =>
                  let '(const_name, offset) := row in
                  (m <- get ;;
                   let geom := geometries m (geometry (priv m)) in
                   match offset geom with
                   | None => next tt
                   | Some anode => insert_or_return const_name anode
                   end)%stmt) m =
  let r := set_all E h (present (geometries m (geometry (priv m))) rows) in
  if fst r <? 0 then Ret (fst r) (put_pass_attributes (snd r) m)
  else Next tt (put_pass_attributes (snd r) m).
Proof.
  induction rows as [|[const_name offset] rows IH]; intros h m Hpa.
  - simpl. destruct m as [s g b f t]. destruct s. simpl in *. subst.
    reflexivity.
  - rewrite foreach_cons. unfold bind at 1, get at 1.
    unfold present. simpl flat_map. fold (present (geometries m (geometry (priv m))) rows).
    destruct (offset (geometries m (geometry (priv m)))) as [anode|] eqn:Hoff.
    + rewrite (insert_or_return_eq _ _ h) by assumption.
      simpl app. simpl set_all. cbv zeta.
      destruct (hmap_set_result E h const_name anode <? 0) eqn:Hr.
      * simpl. rewrite Hr.
        destruct m as [s g b f t]. destruct s. simpl in *. subst. reflexivity.
      * rewrite (IH (ngli_hmap_set h const_name anode)) by reflexivity.
        cbv zeta. rewrite !put_put. reflexivity.
    + unfold next at 1. simpl app. apply IH. assumption.
Qed.

(** [init_attributes] as a whole. *)
Lemma init_attributes_eq m :
  init_attributes E m =
  if hmap_create_ok E then
    let r := set_all E [] (insertions (attributes (priv m))
                                      (geometries m (geometry (priv m)))) in
    Ok (fst r) (put_pass_attributes (snd r) m)
  else Ok (-1) (with_priv (set_pass_attributes None) m).
Proof.
  unfold init_attributes, func.
  unfold bind at 1, new_pass_attributes, modify.
  destruct (hmap_create_ok E); [|reflexivity].
  fold (put_pass_attributes ngli_hmap_create m).
  unfold bind at 1, get at 1. simpl is_null. unfold bind at 1, when at 1, next at 1.
  change (attributes (priv (put_pass_attributes ngli_hmap_create m)))
    with (attributes (priv m)).
  unfold insertions. rewrite set_all_app.
  set (m0 := put_pass_attributes ngli_hmap_create m).
  assert (Hpa : pass_attributes (priv m0) = Some []) by reflexivity.
  unfold bind at 1.
  destruct (attributes (priv m)) as [attrs|].
  - fold insert_or_return.
    rewrite (copy_loop _ [] m0 Hpa). cbv zeta. unfold entries.
    destruct (fst (set_all E [] attrs) <? 0) eqn:H1; [reflexivity|].
    unfold bind at 1. fold insert_or_return.
    rewrite (builtin_loop _ (snd (set_all E [] attrs))) by reflexivity.
    cbv zeta. unfold builtin_entries.
    change (geometries (put_pass_attributes _ m0) _) with
      (geometries m (geometry (priv m))).
    destruct (fst (set_all E _ (present _ attrib_const_map)) <? 0) eqn:H2.
    + reflexivity.
    + rewrite set_all_ok by assumption. reflexivity.
  - unfold next at 1. simpl set_all. simpl fst. simpl snd.
    replace (0 <? 0) with false by reflexivity.
    unfold bind at 1. fold insert_or_return.
    rewrite (builtin_loop _ []) by reflexivity.
    cbv zeta. unfold builtin_entries.
    change (geometries m0 (geometry (priv m0))) with
      (geometries m (geometry (priv m))).
    destruct (fst (set_all E _ (present _ attrib_const_map)) <? 0) eqn:H2.
    + reflexivity.
    + rewrite set_all_ok by assumption. reflexivity.
Qed.

End Aggregation.

(** ** Shape of the validation results *)

Lemma check_attributes_result attrs per_instance m r m' :
  check_attributes attrs per_instance m = Ok r m' ->
  (r = 0 /\ m' = m) \/
  (r = -1 /\ exists fmt args, m' = emit (EvLog ERROR fmt args) m).
Proof.
  destruct attrs as [h|]; [|intros H; inversion H; auto].
  destruct (Z.eq_dec per_instance 0) as [->|Hpi].
  - destruct (vertices_buffer (geometries m (geometry (priv m)))) as [vb|] eqn:Hvb.
    + rewrite (check_attributes_per_vertex _ _ vb Hvb). unfold verdict.
      destruct (first_mismatch _ _ _) as [[key c]|]; intros H; inversion H;
        [right; split; [reflexivity|eexists; eexists; reflexivity] | auto].
    + rewrite check_attributes_no_vertices by assumption.
      destruct h; intros H; inversion H; auto.
  - rewrite check_attributes_per_instance by assumption. unfold verdict.
    destruct (first_mismatch _ _ _) as [[key c]|]; intros H; inversion H;
      [right; split; [reflexivity|eexists; eexists; reflexivity] | auto].
Qed.

(** ** Running a body statement by statement *)

Section Laws.

Context {R A B : Type}.

Lemma bind_next (a : A) (k : A -> body R B) m : bind (next a) k m = k a m.
Proof. reflexivity. Qed.

Lemma bind_return (r : R) (k : A -> body R B) m :
  bind (return_ r) k m = Ret r m.
Proof. reflexivity. Qed.

Lemma bind_fault (k : A -> body R B) m : bind fault k m = Fault.
Proof. reflexivity. Qed.

Lemma bind_get (k : machine -> body R B) m : bind get k m = k m m.
Proof. reflexivity. Qed.

Lemma bind_modify f (k : unit -> body R B) m :
  bind (modify f) k m = k tt (f m).
Proof. reflexivity. Qed.

Lemma bind_call {R'} (f : cfun R') (k : R' -> body R B) m :
  bind (call f) k m =
  match f m with
  | Ok r m' => k r m'
  | Crash => Fault
  end.
Proof. unfold bind, call. destruct (f m); reflexivity. Qed.

Lemma bind_assoc {C} (c : body R A) (k1 : A -> body R B) (k2 : B -> body R C) m :
  bind (bind c k1) k2 m = bind c (fun a => bind (k1 a) k2) m.
Proof. unfold bind. destruct (c m); reflexivity. Qed.

Lemma run_next (a : A) m : @next R A a m = Next a m.
Proof. reflexivity. Qed.

Lemma run_return (r : R) m : @return_ R A r m = Ret r m.
Proof. reflexivity. Qed.

Lemma run_modify f m : @modify R f m = Next tt (f m).
Proof. reflexivity. Qed.

Lemma run_call (f : cfun A) m :
  @call A R f m = match f m with Ok r m' => Next r m' | Crash => Fault end.
Proof. reflexivity. Qed.

End Laws.

(** The callees outside the file and the wrappers around conditions are
    unfolded to [bind], [modify] and [next]; the laws above then run the
    statement at the head until a test on a symbolic value is reached. *)
Ltac open_body :=
  cbv beta iota zeta delta
      [func when deref LOG
       ngl_node_create ngli_node_attach_ctx ngli_node_update
       ngli_node_buffer_ref ngli_node_buffer_unref new_pass_attributes
       hmap_set_pass_attributes free_pass_attributes ngli_pass_init
       ngli_pass_uninit ngli_pass_update ngli_pass_bind ngli_pass_unbind
       ngli_glBindBuffer ngli_glDrawElements ngli_glDrawElementsInstanced
       ngli_glDrawArrays ngli_glDrawArraysInstanced].

Ltac open_body_in H :=
  cbv beta iota zeta delta
      [func when deref LOG
       ngl_node_create ngli_node_attach_ctx ngli_node_update
       ngli_node_buffer_ref ngli_node_buffer_unref new_pass_attributes
       hmap_set_pass_attributes free_pass_attributes ngli_pass_init
       ngli_pass_uninit ngli_pass_update ngli_pass_bind ngli_pass_unbind
       ngli_glBindBuffer ngli_glDrawElements ngli_glDrawElementsInstanced
       ngli_glDrawArrays ngli_glDrawArraysInstanced] in H.

Ltac run :=
  change (-1 <? 0) with true; change (0 <? 0) with false;
  cbn [negb]; cbv beta iota;
  repeat (first [ rewrite bind_assoc | rewrite bind_next | rewrite bind_return
                | rewrite bind_fault | rewrite bind_get | rewrite bind_modify
                | rewrite bind_call | rewrite run_next | rewrite run_return
                | rewrite run_modify | rewrite run_call ];
          cbv beta iota zeta; cbn [negb]).

Ltac run_in H :=
  change (-1 <? 0) with true in H; change (0 <? 0) with false in H;
  cbn [negb] in H; cbv beta iota in H;
  repeat (first [ rewrite bind_assoc in H | rewrite bind_next in H
                | rewrite bind_return in H | rewrite bind_fault in H
                | rewrite bind_get in H | rewrite bind_modify in H
                | rewrite bind_call in H | rewrite run_next in H
                | rewrite run_return in H | rewrite run_modify in H
                | rewrite run_call in H ];
          cbv beta iota zeta in H; cbn [negb] in H).

(** The test the execution is stuck on. *)
Ltac stuck_on t :=
  lazymatch t with
  | match ?x with _ => _ end => stuck_on x
  | bind ?c _ _ => stuck_on c
  | (if ?x then _ else _) => stuck_on x
  | (match ?x with _ => _ end) _ => stuck_on x
  | negb ?x => stuck_on x
  | is_null ?x => stuck_on x
  | Ok _ _ => fail "the call has returned"
  | Crash => fail "the call has returned"
  | _ => t
  end.

Ltac split_test_in H :=
  lazymatch type of H with
  | ?lhs = _ =>
      let t := stuck_on lhs in
      let Hc := fresh "Hc" in
      destruct t eqn:Hc; cbv beta iota zeta in H; cbn [negb] in H;
      cbn [is_null] in H; run_in H
  end.

Ltac finish_in H :=
  lazymatch type of H with
  | Ok _ _ = Ok _ _ => first [injection H as ? ? | injection H as ?]; subst
  | Crash = Ok _ _ => discriminate H
  | Ok _ _ = Crash => discriminate H
  end.

(** ** [render_init], path by path *)

Lemma upd_same {A} (f : node -> A) n a : upd f n a n = a.
Proof. unfold upd. rewrite Pos.eqb_refl. reflexivity. Qed.

Ltac fields_in H :=
  cbn [priv geometries buffers features trace with_priv with_buffers
       with_geometries emit geometry program textures uniforms blocks
       attributes instance_attributes nb_instances pass_attributes pass
       has_indices_buffer_ref indices_type draw set_program
       set_pass_attributes set_pass set_has_indices_buffer_ref
       set_indices_type set_draw put_pass_attributes fst snd
       set_refcount count data_format block buffer_id buffer_refcount] in H.

Ltac fields :=
  cbn [priv geometries buffers features trace with_priv with_buffers
       with_geometries emit geometry program textures uniforms blocks
       attributes instance_attributes nb_instances pass_attributes pass
       has_indices_buffer_ref indices_type draw set_program
       set_pass_attributes set_pass set_has_indices_buffer_ref
       set_indices_type set_draw put_pass_attributes fst snd
       set_refcount count data_format block buffer_id buffer_refcount].

Ltac exits_in H Hr := finish_in H; first [discriminate Hr | congruence].

(** Runs [render_init] in [H] from the program test to the end. *)
Ltac to_the_end H tac :=
  repeat first
    [ progress (rewrite init_attributes_eq in H; cbv zeta in H; fields_in H;
                run_in H)
    | progress (fields_in H; rewrite ?upd_same in H; run_in H)
    | split_test_in H; try tac ].

Ltac same_some :=
  repeat match goal with
    | Hx : Some _ = Some _ |- _ => injection Hx as Hx; subst
    end.

Ltac open_records m :=
  destruct m as [s g b f t]; destruct s;
  cbn [priv geometries buffers features trace geometry program textures
       uniforms blocks attributes instance_attributes nb_instances
       pass_attributes pass has_indices_buffer_ref indices_type draw] in *;
  subst.

Ltac compute_records :=
  cbv beta iota zeta delta
      [init_done init_params default_program default_program_events acquire
       put_pass_attributes with_priv emit with_buffers set_draw set_pass
       set_pass_attributes set_indices_type set_has_indices_buffer_ref
       set_program priv geometries buffers features trace geometry program
       textures uniforms blocks attributes instance_attributes nb_instances
       pass_attributes pass has_indices_buffer_ref indices_type draw
       params_attributes fst snd].

Ltac use_tests :=
  repeat match goal with
    | Hx : ?a = Some _ |- _ => rewrite Hx
    | Hx : ?a = None |- _ => rewrite Hx
    end.

Lemma render_init_success E label m r m' :
  render_init E label m = Ok r m' ->
  (r <? 0) = false ->
  r = 0 /\ m' = init_done E label m /\ init_passes E label m.
Proof.
  intros H Hr. unfold render_init in H. open_body_in H. run_in H.
  split_test_in H; [exits_in H Hr|].
  split_test_in H; [exits_in H Hr|].
  split_test_in H; [|discriminate H].
  destruct (check_attributes_result _ _ _ _ _ Hc1) as [[-> ->]|[-> _]];
    run_in H; [|exits_in H Hr].
  split_test_in H; [|discriminate H].
  destruct (check_attributes_result _ _ _ _ _ Hc2) as [[-> ->]|[-> _]];
    run_in H; [|exits_in H Hr].
  to_the_end H ltac:(exits_in H Hr).
  all: finish_in H; split; [reflexivity|]; same_some.
  all: match goal with
       | Hs : (fst (set_all ?E0 ?h ?l) <? 0) = false |- _ =>
           rewrite (set_all_ok E0 l h Hs) in *
       end.
  all: split;
    [ open_records m; compute_records; use_tests;
      rewrite <- ?app_assoc; reflexivity
    | ].
  all: unfold init_passes, init_params, default_program; cbv zeta; use_tests.
  all: repeat split; try assumption; try discriminate; eauto.
  all: try (intros; same_some; assumption).
  all: match goal with
       | Hp : (pass_init_result _ _ <? 0) = false |- _ =>
           cbn [snd] in Hp; revert Hp; use_tests; intros Hp; exact Hp
       end.
Qed.

(** ** Why [render_init] fails *)

Lemma first_mismatch_in cnt expected l key c :
  first_mismatch cnt expected l = Some (key, c) ->
  exists anode, In (key, anode) l /\ cnt anode <> expected.
Proof.
  intros H. apply first_mismatch_some in H.
  destruct H as (pre & anode & post & -> & _ & <- & Hne).
  exists anode. split; [|assumption].
  apply in_or_app. right. left. reflexivity.
Qed.

Lemma first_mismatch_none_in cnt expected l key anode :
  first_mismatch cnt expected l = None ->
  In (key, anode) l -> cnt anode = expected.
Proof.
  intros H Hin. apply first_mismatch_none in H.
  rewrite Forall_forall in H. exact (H _ Hin).
Qed.

Lemma check_vertices_fail m r m' :
  check_attributes (attributes (priv m)) 0 m = Ok r m' ->
  r <> 0 -> vertex_count_mismatch m.
Proof.
  intros H Hr. unfold vertex_count_mismatch, count_mismatch.
  destruct (attributes (priv m)) as [h|]; [|inversion H; congruence].
  destruct (vertices_buffer (geometries m (geometry (priv m)))) as [vb|] eqn:Hvb.
  - rewrite (check_attributes_per_vertex _ _ vb Hvb) in H. unfold verdict in H.
    destruct (first_mismatch _ _ _) as [[key c]|] eqn:Hf;
      [|inversion H; congruence].
    apply first_mismatch_in in Hf. destruct Hf as (anode & Hin & Hne).
    exists vb. split; [reflexivity|]. exists h, key, anode. auto.
  - rewrite check_attributes_no_vertices in H by assumption.
    destruct h; inversion H; congruence.
Qed.

Lemma check_instances_fail m r m' :
  check_attributes (instance_attributes (priv m)) 1 m = Ok r m' ->
  r <> 0 -> instance_count_mismatch m.
Proof.
  intros H Hr. unfold instance_count_mismatch, count_mismatch.
  destruct (instance_attributes (priv m)) as [h|]; [|inversion H; congruence].
  rewrite check_attributes_per_instance in H by discriminate.
  unfold verdict in H.
  destruct (first_mismatch _ _ _) as [[key c]|] eqn:Hf;
    [|inversion H; congruence].
  apply first_mismatch_in in Hf. destruct Hf as (anode & Hin & Hne).
  exists h, key, anode. auto.
Qed.

Lemma check_vertices_pass m :
  check_attributes (attributes (priv m)) 0 m = Ok 0 m ->
  ~ vertex_count_mismatch m.
Proof.
  intros H (vb & Hvb & h & key & anode & Hh & Hin & Hne).
  rewrite Hh, (check_attributes_per_vertex _ _ vb Hvb) in H. unfold verdict in H.
  destruct (first_mismatch _ _ _) as [[k c]|] eqn:Hf; [discriminate H|].
  apply Hne. eapply first_mismatch_none_in; eassumption.
Qed.

Lemma check_instances_pass m :
  check_attributes (instance_attributes (priv m)) 1 m = Ok 0 m ->
  ~ instance_count_mismatch m.
Proof.
  intros H (h & key & anode & Hh & Hin & Hne).
  rewrite Hh, check_attributes_per_instance in H by discriminate.
  unfold verdict in H.
  destruct (first_mismatch _ _ _) as [[k c]|] eqn:Hf; [discriminate H|].
  apply Hne. eapply first_mismatch_none_in; eassumption.
Qed.

Lemma check_attributes_no_crash attrs per_instance m vb :
  vertices_buffer (geometries m (geometry (priv m))) = Some vb ->
  check_attributes attrs per_instance m <> Crash.
Proof.
  intros Hvb. destruct attrs as [h|]; [|discriminate].
  destruct (Z.eq_dec per_instance 0) as [->|Hpi].
  - rewrite (check_attributes_per_vertex _ _ vb Hvb). unfold verdict.
    destruct (first_mismatch _ _ _) as [[k c]|]; discriminate.
  - rewrite check_attributes_per_instance by assumption. unfold verdict.
    destruct (first_mismatch _ _ _) as [[k c]|]; discriminate.
Qed.

Lemma render_init_no_crash E label m vb :
  vertices_buffer (geometries m (geometry (priv m))) = Some vb ->
  render_init E label m <> Crash.
Proof.
  intros Hvb H. unfold render_init in H. open_body_in H. run_in H.
  split_test_in H; [discriminate H|].
  split_test_in H; [discriminate H|].
  split_test_in H; [|eapply check_attributes_no_crash; eassumption].
  destruct (check_attributes_result _ _ _ _ _ Hc1) as [[-> ->]|[-> [? [? ->]]]];
    run_in H; [|discriminate H].
  split_test_in H; [|eapply check_attributes_no_crash; eassumption].
  destruct (check_attributes_result _ _ _ _ _ Hc2) as [[-> ->]|[-> [? [? ->]]]];
    run_in H; [|discriminate H].
  to_the_end H ltac:(discriminate H).
  all: discriminate H.
Qed.

Ltac as_props :=
  repeat match goal with
    | Hx : (_ <? _) = true |- _ => apply Z.ltb_lt in Hx
    | Hx : (_ && _) = true |- _ => apply andb_prop in Hx; destruct Hx
    | Hx : negb _ = true |- _ => apply negb_true_iff in Hx
    | Hx : (_ =? _) = true |- _ => apply Z.eqb_eq in Hx
    | Hx : (_ =? _) = false |- _ => apply Z.eqb_neq in Hx
    end.

(** The converse of [render_init_success]. *)
Lemma render_init_passes E label m :
  init_passes E label m ->
  render_init E label m = Ok 0 (init_done E label m).
Proof.
  intros (H1 & H2 & H3 & H4 & H5 & H6 & H7 & H8 & H9).
  unfold init_params, default_program in H9. cbv zeta in H9.
  unfold render_init. open_body.
  destruct (program (priv m)) as [p|] eqn:Hp;
    [| destruct (H5 eq_refl) as (p & Hcreate & Hattach);
       rewrite Hcreate in H9 ].
  all: destruct (indices_buffer (geometries m (geometry (priv m))))
         as [ib|] eqn:Hib;
       [ destruct (H6 ib eq_refl) as [Href Hblk] | ].
  all: clear H5 H6.
  all: repeat (progress (run; fields; cbn [is_null];
                         rewrite ?upd_same, ?init_attributes_eq;
                         cbv zeta; rewrite ?(set_all_ok _ _ _ H8);
                         repeat match goal with
                           | Hx : _ = _ |- _ => rewrite Hx
                           end)).
  all: f_equal; clear H1 H2 H3 H4 H8 H9; open_records m; compute_records;
       use_tests; rewrite <- ?app_assoc; reflexivity.
Qed.

Ltac split_goal_test Hc :=
  match goal with |- (?c = _) \/ _ => destruct c eqn:Hc end.

(** Either every test passes or the failure condition holds. *)
Lemma init_passes_or_failure E label m vb :
  vertices_buffer (geometries m (geometry (priv m))) = Some vb ->
  init_passes E label m \/ init_failure (fun n => n <> 0) E label m.
Proof.
  intros Hvb.
  set (F := init_failure (fun n => n <> 0) E label m).
  assert (T1 : (negb (nb_instances (priv m) =? 0)
                && (Z.land (features m) (NGLI_FEATURE_DRAW_INSTANCED E) =? 0))
               = false \/ F).
  { split_goal_test Hc; [right|left; reflexivity].
    as_props. left. split; assumption. }
  assert (T2 : (negb (is_null (instance_attributes (priv m)))
                && (Z.land (features m) (NGLI_FEATURE_INSTANCED_ARRAY E) =? 0))
               = false \/ F).
  { split_goal_test Hc; [right|left; reflexivity].
    as_props. right; left. split; [|assumption].
    destruct (instance_attributes (priv m)); discriminate. }
  assert (T3 : check_attributes (attributes (priv m)) 0 m = Ok 0 m \/ F).
  { destruct (check_attributes (attributes (priv m)) 0 m) as [r1 m1|] eqn:Hc.
    - destruct (check_attributes_result _ _ _ _ _ Hc) as [[-> ->]|[-> _]];
        [left; reflexivity|right].
      do 2 right; left. eapply check_vertices_fail; [eassumption|lia].
    - exfalso. eapply check_attributes_no_crash; eassumption. }
  assert (T4 : check_attributes (instance_attributes (priv m)) 1 m = Ok 0 m \/ F).
  { destruct (check_attributes (instance_attributes (priv m)) 1 m)
      as [r1 m1|] eqn:Hc.
    - destruct (check_attributes_result _ _ _ _ _ Hc) as [[-> ->]|[-> _]];
        [left; reflexivity|right].
      do 3 right; left. eapply check_instances_fail; [eassumption|lia].
    - exfalso. eapply check_attributes_no_crash; eassumption. }
  assert (T5 : (program (priv m) = None ->
                exists p, node_create_result E (NGL_NODE_PROGRAM E) = Some p /\
                          (node_attach_ctx_result E p <? 0) = false) \/ F).
  { destruct (program (priv m)) as [p|] eqn:Hp; [left; discriminate|].
    destruct (node_create_result E (NGL_NODE_PROGRAM E)) as [p|] eqn:Hcreate.
    - destruct (node_attach_ctx_result E p <? 0) eqn:Hattach.
      + right. do 5 right. right; left. split; [assumption|].
        exists p. as_props. auto.
      + left. intros _. exists p. auto.
    - right. do 5 right. left. auto. }
  assert (T6 : (forall ib,
                   indices_buffer (geometries m (geometry (priv m))) = Some ib ->
                   (buffer_ref_result E ib <? 0) = false /\
                   block (buffers m ib) = None) \/ F).
  { destruct (indices_buffer (geometries m (geometry (priv m))))
      as [ib|] eqn:Hib; [|left; discriminate].
    destruct (buffer_ref_result E ib <? 0) eqn:Href.
    - right. do 5 right. do 2 right; left. exists ib. as_props. auto.
    - destruct (block (buffers m ib)) as [blk|] eqn:Hblk.
      + right. do 4 right; left. exists ib, blk. auto.
      + left. intros ? [= <-]. auto. }
  assert (T7 : hmap_create_ok E = true \/ F).
  { split_goal_test Hc; [left; reflexivity|right].
    do 5 right. do 3 right; left. assumption. }
  assert (T8 : (fst (set_all E [] (insertions (attributes (priv m))
                                     (geometries m (geometry (priv m))))) <? 0)
               = false \/ F).
  { split_goal_test Hc; [right|left; reflexivity].
    do 5 right. do 4 right; left. as_props. assumption. }
  assert (T9 : (pass_init_result E (init_params E label m) <? 0) = false \/ F).
  { split_goal_test Hc; [right|left; reflexivity].
    do 5 right. do 5 right. as_props. assumption. }
  unfold init_passes. cbv zeta. tauto.
Qed.

Lemma init_passes_not_failure E label m :
  init_passes E label m -> ~ init_failure (fun n => n <> 0) E label m.
Proof.
  intros (H1 & H2 & H3 & H4 & H5 & H6 & H7 & H8 & H9) HF.
  destruct HF as [[Hn Hl]|[[Hn Hl]|[Hm|[Hm|[(ib & blk & Hib & Hblk)|HR]]]]].
  - unfold lacks in Hl. apply Z.eqb_eq in Hl. apply Z.eqb_neq in Hn.
    rewrite Hl, Hn in H1. discriminate H1.
  - unfold lacks in Hl. apply Z.eqb_eq in Hl. rewrite Hl in H2.
    destruct (instance_attributes (priv m)); [discriminate H2|congruence].
  - exact (check_vertices_pass _ H3 Hm).
  - exact (check_instances_pass _ H4 Hm).
  - destruct (H6 ib Hib) as [_ Hnone]. congruence.
  - destruct HR as [[Hp Hc]|[[Hp (p & Hc & Ha)]|[(ib & Hib & Hr)|[Hc|[Hs|Hi]]]]].
    + destruct (H5 Hp) as (p & Hc' & _). congruence.
    + destruct (H5 Hp) as (p' & Hc' & Ha').
      assert (p' = p) by congruence. subst. apply Z.ltb_lt in Ha. congruence.
    + destruct (H6 ib Hib) as [Hr' _]. apply Z.ltb_lt in Hr. congruence.
    + congruence.
    + apply Z.ltb_lt in Hs. congruence.
    + apply Z.ltb_lt in Hi. congruence.
Qed.

(** ** Attribute validation (C6) *)

Lemma events_since_app m m' evs :
  trace m' = trace m ++ evs -> events_since m m' = evs.
Proof.
  intros H. unfold events_since. rewrite H.
  rewrite skipn_app, skipn_all, Nat.sub_diag. reflexivity.
Qed.

Lemma check_attributes_verdict h per_instance m expected :
  expected_count m per_instance = Some expected ->
  check_attributes (Some h) per_instance m =
  verdict (mismatch_log per_instance) expected m h.
Proof.
  unfold expected_count, mismatch_log. intros He.
  destruct (Z.eqb_spec per_instance 0) as [->|Hpi].
  - destruct (vertices_buffer _) as [vb|] eqn:Hvb; [|discriminate He].
    injection He as <-. apply check_attributes_per_vertex. assumption.
  - injection He as <-. apply check_attributes_per_instance. assumption.
Qed.

(** C6. Validation succeeds on a null or an empty map.  On a present map it
    compares each entry's buffer count with the vertex count
    ([per_instance] false) or with [nb_instances] ([per_instance] true): if
    all agree it succeeds and logs nothing; otherwise it returns -1 at the
    first entry that differs, after one log line carrying that entry's name
    and both counts, whatever the entries after it are. *)
Theorem check_attributes_spec (m : machine) (attrs : option hmap)
  (per_instance : Z) :
  (attrs = None \/ attrs = Some [] ->
   check_attributes attrs per_instance m = Ok 0 m) /\
  (forall h expected,
      attrs = Some h ->
      expected_count m per_instance = Some expected ->
      (Forall (fun e => buffer_count m (snd e) = expected) (entries h) ->
       check_attributes attrs per_instance m = Ok 0 m) /\
      (forall pre key anode post,
          entries h = pre ++ (key, anode) :: post ->
          Forall (fun e => buffer_count m (snd e) = expected) pre ->
          buffer_count m anode <> expected ->
          check_attributes attrs per_instance m =
          Ok (-1) (emit (mismatch_log per_instance key
                                      (buffer_count m anode) expected) m))).
Proof.
  split.
  - intros [->| ->]; reflexivity.
  - intros h expected -> He.
    rewrite (check_attributes_verdict _ _ _ _ He). unfold verdict. split.
    + intros Hall. apply first_mismatch_none in Hall. rewrite Hall. reflexivity.
    + intros pre key anode post Hh Hpre Hne.
      assert (Hf : first_mismatch (buffer_count m) expected (entries h) =
                   Some (key, buffer_count m anode)).
      { apply first_mismatch_some. exists pre, anode, post. auto. }
      rewrite Hf. reflexivity.
Qed.

(** Three attributes on the sample triangle (vertex count 3): "b" has four
    elements and is reported; "c", wrong as well, is never looked at. *)
Lemma check_attributes_spec_witness :
  check_attributes (Some [("a", 5%positive); ("b", 6%positive);
                          ("c", 7%positive)]) 0 Sample.still =
  Ok (-1) (emit (vertices_mismatch_log "b" 4 3) Sample.still).
Proof.
  destruct (check_attributes_spec
              Sample.still
              (Some [("a", 5%positive); ("b", 6%positive); ("c", 7%positive)])
              0) as [_ Hsome].
  destruct (Hsome _ 3 eq_refl eq_refl) as [_ Hfirst].
  apply (Hfirst [("a", 5%positive)] "b" 6%positive [("c", 7%positive)]).
  - reflexivity.
  - repeat constructor.
  - vm_compute. discriminate.
Defined.

(** ** The aggregated attribute map (C3) *)

Lemma set_entries_app h l1 l2 :
  set_entries h (l1 ++ l2) = set_entries (set_entries h l1) l2.
Proof. unfold set_entries. apply fold_left_app. Qed.

Lemma insertions_aggregate attrs g :
  set_entries [] (insertions attrs g) = aggregate attrs g.
Proof.
  unfold insertions, aggregate, copy_entries. rewrite set_entries_app.
  replace (set_entries [] match attrs with Some h => entries h | None => [] end)
    with (match attrs with
          | Some h => set_entries ngli_hmap_create (entries h)
          | None => ngli_hmap_create
          end) by (destruct attrs; reflexivity).
  unfold builtin_entries, present, attrib_const_map. cbn [flat_map].
  destruct (vertices_buffer g), (uvcoords_buffer g), (normals_buffer g);
    reflexivity.
Qed.

Lemma hmap_get_set_same h key data :
  ngli_hmap_get (ngli_hmap_set h key data) key = Some data.
Proof.
  induction h as [|[k d] h IH]; simpl.
  - rewrite String.eqb_refl. reflexivity.
  - destruct (String.eqb k key) eqn:Hk; simpl.
    + rewrite String.eqb_refl. reflexivity.
    + rewrite Hk. exact IH.
Qed.

Lemma hmap_get_set_other h key data key' :
  key <> key' ->
  ngli_hmap_get (ngli_hmap_set h key data) key' = ngli_hmap_get h key'.
Proof.
  intros Hne. induction h as [|[k d] h IH]; simpl.
  - destruct (String.eqb_spec key key'); [contradiction|reflexivity].
  - destruct (String.eqb_spec k key) as [->|Hk]; simpl.
    + destruct (String.eqb_spec key key'); [contradiction|reflexivity].
    + destruct (String.eqb k key'); [reflexivity|exact IH].
Qed.

Lemma hmap_get_insert_slot name slot h key :
  ngli_hmap_get (insert_slot name slot h) key =
  match slot with
  | Some b => if String.eqb key name then Some b else ngli_hmap_get h key
  | None => ngli_hmap_get h key
  end.
Proof.
  destruct slot as [b|]; [|reflexivity]. simpl.
  destruct (String.eqb_spec key name) as [->|Hne].
  - apply hmap_get_set_same.
  - apply hmap_get_set_other. congruence.
Qed.

(** Setting a key that is not there appends the entry. *)
Lemma hmap_set_fresh h key data :
  ~ In key (keys h) -> ngli_hmap_set h key data = h ++ [(key, data)].
Proof.
  induction h as [|[k d] h IH]; simpl; intros Hnin; [reflexivity|].
  destruct (String.eqb_spec k key) as [->|Hk]; [tauto|].
  rewrite IH by tauto. reflexivity.
Qed.

Lemma set_entries_fresh l : forall h,
  NoDup (keys (h ++ l)) -> set_entries h l = h ++ l.
Proof.
  induction l as [|[k d] l IH]; intros h Hnd; simpl.
  - rewrite app_nil_r. reflexivity.
  - unfold keys in Hnd. rewrite map_app in Hnd. simpl in Hnd.
    pose proof (NoDup_remove_2 _ _ _ Hnd) as Hk.
    rewrite hmap_set_fresh.
    + rewrite IH; rewrite <- app_assoc; [reflexivity|].
      unfold keys. rewrite map_app. simpl. exact Hnd.
    + intros Hin. apply Hk. apply in_or_app. left. exact Hin.
Qed.

(** A map with unique names is its own entry-by-entry copy. *)
Lemma copy_entries_wf h : Hmap.wf h -> copy_entries (Some h) = h.
Proof. intros Hwf. apply (set_entries_fresh h []). exact Hwf. Qed.

Lemma aggregate_get attrs g name :
  ngli_hmap_get (aggregate attrs g) name =
  match builtin_slot g name with
  | Some b => Some b
  | None => ngli_hmap_get (copy_entries attrs) name
  end.
Proof.
  unfold aggregate, builtin_slot. rewrite !hmap_get_insert_slot.
  destruct (String.eqb_spec name "ngl_normal") as [->|_].
  { cbn [String.eqb Ascii.eqb Bool.eqb].
    destruct (normals_buffer g), (uvcoords_buffer g), (vertices_buffer g);
      reflexivity. }
  destruct (String.eqb_spec name "ngl_uvcoord") as [->|_].
  { cbn [String.eqb Ascii.eqb Bool.eqb].
    destruct (normals_buffer g), (uvcoords_buffer g), (vertices_buffer g);
      reflexivity. }
  destruct (String.eqb_spec name "ngl_position") as [->|_];
    destruct (normals_buffer g), (uvcoords_buffer g), (vertices_buffer g);
    reflexivity.
Qed.

(** C3. After a successful init, [pass_attributes] is the entry-by-entry
    copy of the user's attributes followed by the insertion, with overwrite,
    of the position, UV and normal slots of the geometry, each inserted if
    and only if it is not null.  So a reserved name whose slot is not null is
    bound to the builtin buffer whatever the user declared under it, and
    every other name is bound as in the copy of the user's map, which is the
    user's map itself when its names are unique. *)
Theorem pass_attributes_after_init (E : externals) (label : string)
  (m m' : machine) :
  render_init E label m = Ok 0 m' ->
  let g := geometries m (geometry (priv m)) in
  let user := attributes (priv m) in
  pass_attributes (priv m') = Some (aggregate user g) /\
  (forall name b,
      builtin_slot g name = Some b ->
      ngli_hmap_get (aggregate user g) name = Some b) /\
  (forall name,
      builtin_slot g name = None ->
      ngli_hmap_get (aggregate user g) name =
      ngli_hmap_get (copy_entries user) name) /\
  (forall h, user = Some h -> Hmap.wf h -> copy_entries user = h).
Proof.
  intros H g user.
  destruct (render_init_success _ _ _ _ _ H eq_refl) as (_ & -> & _).
  split; [|split; [|split]].
  - unfold init_done. cbn [priv pass_attributes params_attributes init_params].
    rewrite insertions_aggregate. reflexivity.
  - intros name b Hb. rewrite aggregate_get, Hb. reflexivity.
  - intros name Hb. rewrite aggregate_get, Hb. reflexivity.
  - intros h -> Hwf. apply copy_entries_wf. exact Hwf.
Qed.

(** The user's "ngl_position" (buffer 5) loses to the vertex buffer 2. *)
Lemma pass_attributes_after_init_witness :
  pass_attributes (priv (init_done Sample.env "render" Sample.collision)) =
    Some [("ngl_position", 2%positive); ("color", 5%positive);
          ("ngl_uvcoord", 3%positive)] /\
  ngli_hmap_get
    (aggregate (attributes (priv Sample.collision))
               (geometries Sample.collision
                           (geometry (priv Sample.collision))))
    "ngl_position" = Some 2%positive.
Proof.
  assert (Hinit : render_init Sample.env "render" Sample.collision =
                  Ok 0 (init_done Sample.env "render" Sample.collision))
    by (vm_compute; reflexivity).
  destruct (pass_attributes_after_init Sample.env "render" _ _ Hinit)
    as (Hpa & Hslot & _).
  split.
  - rewrite Hpa. vm_compute. reflexivity.
  - apply Hslot. reflexivity.
Defined.

(** ** Selection of the draw procedure (C2) *)

Lemma init_done_draw E label m :
  draw (priv (init_done E label m)) =
  Some (draw_table (has_indices m) (0 <? nb_instances (priv m))).
Proof.
  unfold init_done, has_indices. cbn [priv draw].
  destruct (indices_buffer _); destruct (0 <? _); reflexivity.
Qed.

Lemma draw_code_priv E f m m' :
  draw_code E f m = Ok tt m' -> priv m' = priv m.
Proof.
  intros H.
  destruct f; unfold draw_code, draw_elements, draw_elements_instanced,
    draw_arrays, draw_arrays_instanced in H; open_body_in H; run_in H.
  all: split_test_in H; [|discriminate H]; finish_in H; reflexivity.
Qed.

Lemma render_update_draw E t m r m' :
  render_update E t m = Ok r m' -> draw (priv m') = draw (priv m).
Proof.
  intros H. unfold render_update in H. open_body_in H. run_in H.
  split_test_in H; finish_in H; reflexivity.
Qed.

Lemma render_draw_draw E m m' :
  render_draw E m = Ok tt m' -> draw (priv m') = draw (priv m).
Proof.
  intros H. unfold render_draw in H. open_body_in H. run_in H.
  split_test_in H; fields_in H.
  all: destruct (draw (priv m)) as [f|] eqn:Hf; run_in H; [|discriminate H].
  all: destruct (draw_code E f _) as [[] m1|] eqn:Hd; [|discriminate H].
  all: apply draw_code_priv in Hd; cbn [priv emit] in Hd.
  all: run_in H; split_test_in H; finish_in H; cbn [priv emit];
       rewrite Hd; exact Hf.
Qed.

Lemma render_uninit_priv m m' :
  render_uninit m = Ok tt m' ->
  draw (priv m') = draw (priv m) /\
  has_indices_buffer_ref (priv m') = has_indices_buffer_ref (priv m).
Proof.
  intros H. unfold render_uninit in H. open_body_in H. run_in H. fields_in H.
  split_test_in H.
  - finish_in H. split; reflexivity.
  - split_test_in H; [|discriminate H]. finish_in H. split; reflexivity.
Qed.

Lemma callbacks_draw m m' : callbacks m m' -> draw (priv m') = draw (priv m).
Proof.
  induction 1 as [|m m1 m2 Hcb _ IH]; [reflexivity|].
  rewrite IH. destruct Hcb as [E t r m m' H|E m m' H|m m' H].
  - eapply render_update_draw; eassumption.
  - eapply render_draw_draw; eassumption.
  - apply render_uninit_priv in H. tauto.
Qed.

(** C2. After a successful init the draw procedure is the one the decision
    table gives for (the geometry has an index buffer, [nb_instances] > 0),
    and no later update, draw or uninit of the node changes it. *)
Theorem draw_selection (E : externals) (label : string) (m m' : machine) :
  render_init E label m = Ok 0 m' ->
  draw (priv m') =
    Some (draw_table (has_indices m) (0 <? nb_instances (priv m))) /\
  (forall m'', callbacks m' m'' -> draw (priv m'') = draw (priv m')).
Proof.
  intros H.
  destruct (render_init_success _ _ _ _ _ H eq_refl) as (_ & -> & _).
  split; [apply init_done_draw|apply callbacks_draw].
Qed.

(** An indexed geometry drawn in three instances gets the indexed instanced
    procedure, and keeps it through an update, a draw and an uninit. *)
Lemma draw_selection_witness :
  draw (priv (init_done Sample.env "render" Sample.instanced)) =
    Some fn_draw_elements_instanced.
Proof.
  assert (Hinit : render_init Sample.env "render" Sample.instanced =
                  Ok 0 (init_done Sample.env "render" Sample.instanced))
    by (vm_compute; reflexivity).
  exact (proj1 (draw_selection Sample.env "render" _ _ Hinit)).
Defined.

(** ** Failures of init (C1, C9, C10) *)

(** With a vertex buffer on the geometry, [render_init] returns. *)
Lemma render_init_returns E label m vb :
  vertices_buffer (geometries m (geometry (priv m))) = Some vb ->
  exists ret m', render_init E label m = Ok ret m'.
Proof.
  intros Hvb. destruct (render_init E label m) as [r m'|] eqn:H.
  - exists r, m'. reflexivity.
  - exfalso. exact (render_init_no_crash _ _ _ _ Hvb H).
Qed.

Lemma failure_gives_negative E label m ret m' :
  render_init E label m = Ok ret m' ->
  init_failure (fun n => n <> 0) E label m ->
  ret < 0.
Proof.
  intros H Hf. destruct (ret <? 0) eqn:Hr; [apply Z.ltb_lt; exact Hr|].
  exfalso. destruct (render_init_success _ _ _ _ _ H Hr) as (_ & _ & Hp).
  exact (init_passes_not_failure _ _ _ Hp Hf).
Qed.

Lemma negative_gives_failure E label m vb ret m' :
  vertices_buffer (geometries m (geometry (priv m))) = Some vb ->
  render_init E label m = Ok ret m' ->
  ret < 0 ->
  init_failure (fun n => n <> 0) E label m.
Proof.
  intros Hvb H Hneg.
  destruct (init_passes_or_failure E label m vb Hvb) as [Hp|Hf];
    [|exact Hf].
  rewrite (render_init_passes _ _ _ Hp) in H. injection H as <- _. lia.
Qed.

(** C1, as the code has it.  On a geometry with a vertex buffer, init
    returns a failure if and only if: [nb_instances] is not zero (negative
    values included) and the context lacks instanced draws; or the
    [instance_attributes] map is present (empty or not) and the context
    lacks instanced arrays; or some buffer of [attributes] has a count
    different from the vertex count; or some buffer of
    [instance_attributes] has a count different from [nb_instances]; or the
    index buffer references a block; or one of the callees fails (default
    program, reference on the index buffer, derived attribute map, pass). *)
Theorem render_init_fails_iff (E : externals) (label : string) (m : machine)
  (vb : node) :
  vertices_buffer (geometries m (geometry (priv m))) = Some vb ->
  exists ret m',
    render_init E label m = Ok ret m' /\
    (ret < 0 <-> init_failure (fun n => n <> 0) E label m).
Proof.
  intros Hvb.
  destruct (render_init_returns E label m vb Hvb) as (ret & m' & H).
  exists ret, m'. split; [exact H|]. split.
  - intros Hneg. exact (negative_gives_failure _ _ _ _ _ _ Hvb H Hneg).
  - intros Hf. exact (failure_gives_negative _ _ _ _ _ H Hf).
Qed.

Lemma render_init_fails_iff_witness :
  exists ret m',
    render_init Sample.env "render" Sample.instanced = Ok ret m' /\
    (ret < 0 <->
     init_failure (fun n => n <> 0) Sample.env "render" Sample.instanced).
Proof.
  exact (render_init_fails_iff Sample.env "render" Sample.instanced
                               2%positive eq_refl).
Defined.

(** C1 as claimed reads "instanced" as [nb_instances > 0].  With
    [nb_instances = -1] on a context without instanced draws, nothing else
    being wrong, init fails although the claimed condition is false. *)
Lemma render_init_fails_iff_counterexample :
  vertices_buffer (geometries Sample.negative
                              (geometry (priv Sample.negative))) =
    Some 2%positive /\
  render_init Sample.env "render" Sample.negative =
    Ok (-1) (emit (EvLog ERROR "context does not support instanced draws" [])
                  Sample.negative) /\
  ~ init_failure (fun n => n > 0) Sample.env "render" Sample.negative.
Proof.
  split; [reflexivity|]. split; [vm_compute; reflexivity|].
  intros [[Hn _]|[[Hn _]|[Hm|[Hm|[(ib & blk & Hib & _)|HR]]]]].
  - vm_compute in Hn. discriminate Hn.
  - apply Hn. reflexivity.
  - destruct Hm as (vb & _ & h & key & anode & Hh & _). discriminate Hh.
  - destruct Hm as (h & key & anode & Hh & _). discriminate Hh.
  - discriminate Hib.
  - destruct HR as [[_ Hc]|[[_ (p & _ & Ha)]|[(ib & Hib & _)|[Hc|[Hs|Hi]]]]].
    + discriminate Hc.
    + vm_compute in Ha. discriminate Ha.
    + discriminate Hib.
    + discriminate Hc.
    + vm_compute in Hs. discriminate Hs.
    + vm_compute in Hi. discriminate Hi.
Qed.

(** C9. A node with [nb_instances = 0] and an instance attribute whose
    buffer is not empty does not initialise: the instance attributes are
    validated against the expected count 0 (the validation logs a mismatch
    with that count), and init returns a failure. *)
Theorem instance_attributes_without_instances (E : externals) (label : string)
  (m : machine) (vb : node) (h : hmap) (key : string) (anode : node) :
  vertices_buffer (geometries m (geometry (priv m))) = Some vb ->
  nb_instances (priv m) = 0 ->
  instance_attributes (priv m) = Some h ->
  In (key, anode) (entries h) ->
  buffer_count m anode <> 0 ->
  (exists key' c,
      c <> 0 /\
      check_attributes (instance_attributes (priv m)) 1 m =
      Ok (-1) (emit (instance_mismatch_log key' c 0) m)) /\
  (exists ret m', render_init E label m = Ok ret m' /\ ret < 0).
Proof.
  intros Hvb Hnb Hia Hin Hne. split.
  - rewrite Hia, check_attributes_per_instance by discriminate.
    unfold verdict. rewrite Hnb.
    destruct (first_mismatch (buffer_count m) 0 (entries h))
      as [[key' c]|] eqn:Hf.
    + exists key', c. split; [|reflexivity].
      apply first_mismatch_some in Hf.
      destruct Hf as (_ & _ & _ & _ & _ & _ & Hc). exact Hc.
    + exfalso. apply Hne. eapply first_mismatch_none_in; eassumption.
  - destruct (render_init_returns E label m vb Hvb) as (ret & m' & H).
    exists ret, m'. split; [exact H|].
    apply (failure_gives_negative _ _ _ _ _ H).
    do 3 right; left. exists h, key, anode. rewrite Hnb. auto.
Qed.

Lemma instance_attributes_without_instances_witness :
  (exists key' c,
      c <> 0 /\
      check_attributes (instance_attributes (priv Sample.stray)) 1 Sample.stray =
      Ok (-1) (emit (instance_mismatch_log key' c 0) Sample.stray)) /\
  (exists ret m',
      render_init Sample.env "render" Sample.stray = Ok ret m' /\ ret < 0).
Proof.
  apply (instance_attributes_without_instances
           Sample.env "render" Sample.stray 2%positive
           [("offset", 5%positive)] "offset" 5%positive).
  - reflexivity.
  - reflexivity.
  - reflexivity.
  - left. reflexivity.
  - vm_compute. discriminate.
Defined.

(** C10. With a negative [nb_instances] the capability check takes the node
    for instanced (init fails on a context without instanced draws), while
    the selection takes it for non-instanced (a successful init selects the
    non-instanced indexed or arrays procedure). *)
Theorem negative_nb_instances (E : externals) (label : string) (m : machine) :
  nb_instances (priv m) < 0 ->
  (lacks (NGLI_FEATURE_DRAW_INSTANCED E) m ->
   render_init E label m =
   Ok (-1) (emit (EvLog ERROR "context does not support instanced draws" []) m)) /\
  (forall m',
      render_init E label m = Ok 0 m' ->
      draw (priv m') =
      Some (if has_indices m then fn_draw_elements else fn_draw_arrays)).
Proof.
  intros Hneg. split.
  - intros Hl. unfold lacks in Hl. unfold render_init. open_body. run.
    rewrite Hl. destruct (Z.eqb_spec (nb_instances (priv m)) 0) as [H0|_];
      [lia|]. cbn [negb andb Z.eqb]. run. reflexivity.
  - intros m' H.
    destruct (render_init_success _ _ _ _ _ H eq_refl) as (_ & -> & _).
    rewrite init_done_draw.
    destruct (Z.ltb_spec 0 (nb_instances (priv m))) as [Hpos|_]; [lia|].
    destruct (has_indices m); reflexivity.
Qed.

Lemma negative_nb_instances_witness :
  render_init Sample.env "render" Sample.negative =
    Ok (-1) (emit (EvLog ERROR "context does not support instanced draws" [])
                  Sample.negative) /\
  draw (priv (init_done Sample.env "render" Sample.negative_supported)) =
    Some fn_draw_arrays.
Proof.
  split.
  - apply (negative_nb_instances Sample.env "render" Sample.negative);
      reflexivity.
  - apply (negative_nb_instances Sample.env "render" Sample.negative_supported).
    + reflexivity.
    + vm_compute. reflexivity.
Defined.

(** ** Drawing (C4, C5) *)

Lemma draw_calls_draw_events E m f b :
  draw_calls (draw_events E m f b) = [draw_call E m f b].
Proof. destruct f; reflexivity. Qed.

Lemma draw_code_run E f m b :
  draw_buffer m f = Some b ->
  draw_code E f m = Ok tt (emit_all (draw_events E m f b) m).
Proof.
  unfold draw_buffer. intros Hb.
  destruct f; unfold draw_code, draw_elements, draw_elements_instanced,
    draw_arrays, draw_arrays_instanced; open_body; run; rewrite Hb; run;
    unfold emit_all, emit; cbn [priv geometries buffers features trace];
    rewrite <- ?app_assoc; reflexivity.
Qed.

Lemma render_draw_run E m f b :
  draw (priv m) = Some f ->
  draw_buffer m f = Some b ->
  render_draw E m =
  Ok tt (emit_all ([EvPassBind] ++ bind_log E ++ draw_events E m f b
                   ++ [EvPassUnbind] ++ unbind_log E) m).
Proof.
  intros Hf Hb. unfold render_draw, bind_log, unbind_log. open_body. run.
  destruct (pass_bind_result E <? 0); run; fields; rewrite Hf; run.
  all: rewrite (draw_code_run E f _ b) by exact Hb; run.
  all: destruct (pass_unbind_result E <? 0); run.
  all: unfold emit_all, emit; cbn [priv geometries buffers features trace];
       f_equal; f_equal; rewrite <- ?app_assoc; cbn [app];
       rewrite <- ?app_assoc; reflexivity.
Qed.

Lemma events_since_emit_all m evs : events_since m (emit_all evs m) = evs.
Proof. apply events_since_app. reflexivity. Qed.

(** After a successful init on a geometry with a vertex buffer, the buffer
    of the selected procedure is there. *)
Lemma init_done_draw_buffer E label m vb :
  vertices_buffer (geometries m (geometry (priv m))) = Some vb ->
  exists f b,
    draw (priv (init_done E label m)) = Some f /\
    draw_buffer (init_done E label m) f = Some b.
Proof.
  intros Hvb. unfold init_done, draw_buffer.
  cbn [priv draw geometries geometry].
  destruct (indices_buffer _) as [ib|] eqn:Hib;
    destruct (0 <? nb_instances (priv m));
    eexists; eexists; (split; [reflexivity|]); cbv beta iota;
    first [reflexivity | exact Hvb].
Qed.

Lemma render_update_priv E t m r m' :
  render_update E t m = Ok r m' -> priv m' = priv m.
Proof.
  intros H. unfold render_update in H. open_body_in H. run_in H.
  split_test_in H; finish_in H; reflexivity.
Qed.

Lemma render_draw_priv E m m' : render_draw E m = Ok tt m' -> priv m' = priv m.
Proof.
  intros H. unfold render_draw in H. open_body_in H. run_in H.
  split_test_in H; fields_in H.
  all: destruct (draw (priv m)) as [f|] eqn:Hf; run_in H; [|discriminate H].
  all: destruct (draw_code E f _) as [[] m1|] eqn:Hd; [|discriminate H].
  all: apply draw_code_priv in Hd; cbn [priv emit] in Hd.
  all: run_in H; split_test_in H; finish_in H; cbn [priv emit]; exact Hd.
Qed.

(** Nothing in the life of an initialised node writes its private data. *)
Lemma later_priv m1 m : later m1 m -> priv m = priv m1.
Proof.
  induction 1 as [|E t r m m' _ IH H|E m m' _ IH H|g b m _ IH|e m _ IH].
  - reflexivity.
  - rewrite (render_update_priv _ _ _ _ _ H). exact IH.
  - rewrite (render_draw_priv _ _ _ H). exact IH.
  - exact IH.
  - exact IH.
Qed.

Lemma later_draw_table E0 label m0 m :
  later (init_done E0 label m0) m ->
  draw (priv m) =
  Some (draw_table (has_indices m0) (0 <? nb_instances (priv m0))).
Proof.
  intros Hl. rewrite (later_priv _ _ Hl). apply init_done_draw.
Qed.

(** C5. Drawing an initialised node never fails: at any point [m] of the
    life of a node whose init succeeded (after any updates, draws and
    rewritings of the scene), and whatever the pass answers, [render_draw]
    returns as long as the geometry has the buffer the selected procedure
    counts; on its way it binds the pass, logs if the bind failed, runs the
    selected draw procedure all the same, unbinds the pass and logs if the
    unbind failed.  Right after init that buffer is there when the
    geometry has a vertex buffer. *)
Theorem render_draw_never_fails (E0 E : externals) (label : string)
  (m0 m1 m : machine) (b : node) :
  render_init E0 label m0 = Ok 0 m1 ->
  later m1 m ->
  let f := draw_table (has_indices m0) (0 <? nb_instances (priv m0)) in
  draw_buffer m f = Some b ->
  exists m',
    draw (priv m) = Some f /\
    render_draw E m = Ok tt m' /\
    draw_code E f (emit_all ([EvPassBind] ++ bind_log E) m) =
      Ok tt (emit_all ([EvPassBind] ++ bind_log E ++ draw_events E m f b) m) /\
    events_since m m' =
      [EvPassBind] ++ bind_log E ++ draw_events E m f b
      ++ [EvPassUnbind] ++ unbind_log E /\
    (forall vb,
        vertices_buffer (geometries m0 (geometry (priv m0))) = Some vb ->
        exists b1, draw_buffer m1 f = Some b1).
Proof.
  intros H Hl f Hb.
  destruct (render_init_success _ _ _ _ _ H eq_refl) as (_ & -> & _).
  pose proof (later_draw_table _ _ _ _ Hl) as Hf. fold f in Hf.
  eexists. split; [exact Hf|].
  split; [apply (render_draw_run E m f b Hf Hb)|]. split.
  - rewrite (draw_code_run E f _ b) by exact Hb.
    unfold emit_all. cbn [priv geometries buffers features trace].
    f_equal. f_equal. rewrite <- !app_assoc. reflexivity.
  - split; [apply events_since_app; reflexivity|].
    intros vb Hvb.
    destruct (init_done_draw_buffer E0 label m0 vb Hvb) as (f' & b1 & Hf' & Hb1).
    rewrite init_done_draw in Hf'. injection Hf' as <-.
    exists b1. exact Hb1.
Qed.

(** One frame after init, on a geometry the update has rewritten, with a
    pass whose bind and unbind both fail: the draw call is issued. *)
Lemma render_draw_never_fails_witness :
  emitted (render_draw Sample.env_bind_fails) Frames.updated =
  [EvPassBind; EvLog ERROR "pass upload data error" [];
   EvGlDrawArrays 1 0 6;
   EvPassUnbind; EvLog ERROR "could not unbind pass" []].
Proof.
  assert (Hinit : render_init Sample.env "render" Sample.still =
                  Ok 0 (init_done Sample.env "render" Sample.still))
    by (vm_compute; reflexivity).
  assert (Hup : render_update Frames.animated PrimFloat.one
                  (init_done Sample.env "render" Sample.still) =
                Ok 0 Frames.updated)
    by (vm_compute; reflexivity).
  destruct (render_draw_never_fails Sample.env Sample.env_bind_fails "render"
              _ _ Frames.updated 2%positive Hinit
              (later_update _ _ _ _ _ _ (later_init _) Hup) eq_refl)
    as (m' & _ & Hdraw & _ & Hev & _).
  unfold emitted, after. rewrite Hdraw, Hev.
  vm_compute. reflexivity.
Defined.

(** C4, as the code has it.  Every draw of an initialised node, at any
    point [m] of its life after a successful init, issues exactly one draw
    invocation.  The procedure was fixed at init, and the index type and
    the instance count come from the node's private data, which nothing
    has written since; the topology and the index or vertex count are read
    from the geometry and from its buffer when the draw runs, so they are
    the current ones, whatever the updates and the rest of the program have
    made of the shared nodes since init. *)
Theorem draw_reads_current_geometry (E0 E : externals) (label : string)
  (m0 m1 m : machine) (b : node) :
  render_init E0 label m0 = Ok 0 m1 ->
  later m1 m ->
  let f := draw_table (has_indices m0) (0 <? nb_instances (priv m0)) in
  draw_buffer m f = Some b ->
  exists m',
    render_draw E m = Ok tt m' /\
    draw_calls (events_since m m') = [draw_call E m f b] /\
    draw_call E m f b =
      let mode := ngli_topology_get_gl_topology
                    E (topology (geometries m (geometry (priv m0)))) in
      let cnt := count (buffers m b) in
      match f with
      | fn_draw_elements =>
          EvGlDrawElements mode cnt (indices_type (priv m1)) 0
      | fn_draw_elements_instanced =>
          EvGlDrawElementsInstanced mode cnt (indices_type (priv m1)) 0
                                    (nb_instances (priv m0))
      | fn_draw_arrays => EvGlDrawArrays mode 0 cnt
      | fn_draw_arrays_instanced =>
          EvGlDrawArraysInstanced mode 0 cnt (nb_instances (priv m0))
      end.
Proof.
  intros H Hl f Hb.
  destruct (render_init_success _ _ _ _ _ H eq_refl) as (_ & -> & _).
  pose proof (later_draw_table _ _ _ _ Hl) as Hf. fold f in Hf.
  pose proof (later_priv _ _ Hl) as Hpriv.
  eexists. split; [apply (render_draw_run E m f b Hf Hb)|]. split.
  - rewrite events_since_emit_all.
    unfold draw_calls. rewrite !filter_app. cbn [filter is_draw_call app].
    fold (draw_calls (draw_events E m f b)). rewrite draw_calls_draw_events.
    unfold bind_log, unbind_log.
    destruct (pass_bind_result E <? 0), (pass_unbind_result E <? 0);
      reflexivity.
  - unfold draw_call. cbv zeta. rewrite Hpriv. reflexivity.
Qed.

(** Drawing the sample triangle one frame after init, once the update of
    its geometry has grown the vertex buffer to six elements and changed
    the topology. *)
Lemma draw_reads_current_geometry_witness :
  exists m',
    render_draw Sample.env Frames.updated = Ok tt m' /\
    draw_calls (events_since Frames.updated m') = [EvGlDrawArrays 1 0 6].
Proof.
  assert (Hinit : render_init Sample.env "render" Sample.still =
                  Ok 0 (init_done Sample.env "render" Sample.still))
    by (vm_compute; reflexivity).
  assert (Hup : render_update Frames.animated PrimFloat.one
                  (init_done Sample.env "render" Sample.still) =
                Ok 0 Frames.updated)
    by (vm_compute; reflexivity).
  destruct (draw_reads_current_geometry
              Sample.env Sample.env "render" _ _ Frames.updated 2%positive
              Hinit (later_update _ _ _ _ _ _ (later_init _) Hup) eq_refl)
    as (m' & Hdraw & Hcalls & _).
  exists m'. split; [exact Hdraw|]. rewrite Hcalls. vm_compute. reflexivity.
Defined.

(** C4 as claimed: what a draw emits would not depend on mutations of the
    geometry after init.  The same initialised node emits a different draw
    invocation once the vertex count and the topology have changed. *)
Lemma draw_reads_current_geometry_counterexample :
  render_init Sample.env "render" Sample.still =
    Ok 0 (init_done Sample.env "render" Sample.still) /\
  draw_calls (emitted (render_draw Sample.env)
                      (init_done Sample.env "render" Sample.still)) =
    [EvGlDrawArrays 4 0 3] /\
  draw_calls (emitted (render_draw Sample.env) Sample.mutated) =
    [EvGlDrawArrays 1 0 6].
Proof.
  split; [vm_compute; reflexivity|].
  split; vm_compute; reflexivity.
Qed.

(** ** The reference on the index buffer (C7, C8) *)

Lemma render_uninit_run m :
  (has_indices_buffer_ref (priv m) <> 0 ->
   indices_buffer (geometries m (geometry (priv m))) <> None) ->
  render_uninit m = Ok tt (uninit_done m).
Proof.
  intros Hheld. unfold render_uninit, uninit_done, release. open_body. run.
  fields. destruct (Z.eqb_spec (has_indices_buffer_ref (priv m)) 0) as [H0|Hn];
    cbn [negb]; run.
  - reflexivity.
  - destruct (indices_buffer _) as [ib|]; [|exfalso; apply (Hheld Hn eq_refl)].
    run. unfold emit, with_buffers, with_priv.
    cbn [priv geometries buffers features trace].
    rewrite <- app_assoc. reflexivity.
Qed.

(** Without a reference held, nothing is released. *)
Lemma releases_uninit_done m :
  releases (events_since m (uninit_done m)) =
  if has_indices_buffer_ref (priv m) =? 0 then []
  else match indices_buffer (geometries m (geometry (priv m))) with
       | Some ib => [ib]
       | None => []
       end.
Proof.
  rewrite (events_since_app m (uninit_done m) _ eq_refl).
  destruct (has_indices_buffer_ref (priv m) =? 0); [reflexivity|].
  destruct (indices_buffer _); reflexivity.
Qed.

Lemma acquisitions_app l1 l2 :
  acquisitions (l1 ++ l2) = acquisitions l1 ++ acquisitions l2.
Proof. unfold acquisitions. apply flat_map_app. Qed.

Lemma acquisitions_default_program E s :
  acquisitions (default_program_events E s) = [].
Proof.
  unfold default_program_events. destruct (program s); [reflexivity|].
  destruct (node_create_result E (NGL_NODE_PROGRAM E)); reflexivity.
Qed.

(** C7, as the code has it.  A successful init of a node whose flag was
    clear sets [has_indices_buffer_ref] if and only if the geometry has an
    index buffer, and then it has acquired exactly one reference on that
    buffer.  [render_uninit] releases exactly one reference when the flag is
    set and none otherwise; it leaves the flag as it found it, so a second
    [render_uninit] on the same private data releases the buffer again. *)
Theorem index_buffer_reference (E : externals) (label : string)
  (m m' : machine) :
  has_indices_buffer_ref (priv m) = 0 ->
  render_init E label m = Ok 0 m' ->
  let g := geometries m (geometry (priv m)) in
  (has_indices_buffer_ref (priv m') <> 0 <-> indices_buffer g <> None) /\
  acquisitions (events_since m m') = held_buffer m /\
  (forall ib, indices_buffer g = Some ib ->
              buffer_refcount (buffers m' ib) =
              buffer_refcount (buffers m ib) + 1) /\
  (forall mu,
      (has_indices_buffer_ref (priv mu) <> 0 ->
       indices_buffer (geometries mu (geometry (priv mu))) <> None) ->
      render_uninit mu = Ok tt (uninit_done mu) /\
      releases (events_since mu (uninit_done mu)) =
        (if has_indices_buffer_ref (priv mu) =? 0 then [] else held_buffer mu) /\
      has_indices_buffer_ref (priv (uninit_done mu)) =
        has_indices_buffer_ref (priv mu)) /\
  render_uninit m' = Ok tt (uninit_done m') /\
  releases (events_since m' (uninit_done m')) = held_buffer m /\
  (forall ib, indices_buffer g = Some ib ->
              buffer_refcount (buffers (uninit_done m') ib) =
              buffer_refcount (buffers m ib)) /\
  render_uninit (uninit_done m') = Ok tt (uninit_done (uninit_done m')) /\
  releases (events_since (uninit_done m') (uninit_done (uninit_done m'))) =
    held_buffer m.
Proof.
  intros Hflag H g.
  destruct (render_init_success _ _ _ _ _ H eq_refl) as (_ & -> & _).
  assert (Hset : has_indices_buffer_ref (priv (init_done E label m)) =
                 match indices_buffer g with Some _ => 1 | None => 0 end).
  { unfold init_done. cbn [priv has_indices_buffer_ref]. fold g.
    destruct (indices_buffer g); [reflexivity|exact Hflag]. }
  assert (Hgeo : indices_buffer (geometries (init_done E label m)
                                   (geometry (priv (init_done E label m)))) =
                 indices_buffer g) by reflexivity.
  assert (Hheld : forall mu,
             has_indices_buffer_ref (priv mu) =
               match indices_buffer g with Some _ => 1 | None => 0 end ->
             indices_buffer (geometries mu (geometry (priv mu))) =
               indices_buffer g ->
             has_indices_buffer_ref (priv mu) <> 0 ->
             indices_buffer (geometries mu (geometry (priv mu))) <> None).
  { intros mu Hs Hg Hn. rewrite Hg. rewrite Hs in Hn.
    destruct (indices_buffer g); [discriminate|contradiction]. }
  assert (Hrel : forall mu,
             has_indices_buffer_ref (priv mu) =
               match indices_buffer g with Some _ => 1 | None => 0 end ->
             indices_buffer (geometries mu (geometry (priv mu))) =
               indices_buffer g ->
             releases (events_since mu (uninit_done mu)) = held_buffer m).
  { intros mu Hs Hg. rewrite releases_uninit_done, Hs, Hg.
    unfold held_buffer. fold g. destruct (indices_buffer g); reflexivity. }
  split.
  { rewrite Hset. destruct (indices_buffer g); split; intros Hx;
      first [discriminate | contradiction | exfalso; apply Hx; reflexivity]. }
  split.
  { rewrite (events_since_app m (init_done E label m) _ eq_refl).
    rewrite !acquisitions_app, acquisitions_default_program.
    unfold held_buffer. fold g. destruct (indices_buffer g); reflexivity. }
  split.
  { intros ib Hib. unfold init_done. cbn [buffers priv geometry]. fold g.
    rewrite Hib. unfold acquire. rewrite upd_same. reflexivity. }
  split.
  { intros mu Hmu. split; [apply render_uninit_run; exact Hmu|].
    split; [|reflexivity].
    rewrite releases_uninit_done. unfold held_buffer. reflexivity. }
  split.
  { apply render_uninit_run. apply Hheld; assumption. }
  split.
  { apply Hrel; assumption. }
  split.
  { intros ib Hib. unfold uninit_done.
    cbn [buffers]. rewrite Hset, Hgeo, Hib. cbn [Z.eqb].
    unfold release. rewrite upd_same. cbn [buffer_refcount set_refcount].
    unfold init_done. cbn [buffers priv geometry]. fold g. rewrite Hib.
    unfold acquire. rewrite upd_same. cbn [buffer_refcount set_refcount]. lia. }
  split.
  { apply render_uninit_run. apply Hheld; [exact Hset|exact Hgeo]. }
  apply Hrel; [exact Hset|exact Hgeo].
Qed.

Lemma index_buffer_reference_witness :
  acquisitions (events_since Sample.instanced
                  (init_done Sample.env "render" Sample.instanced)) =
    [4%positive] /\
  releases (events_since
              (init_done Sample.env "render" Sample.instanced)
              (uninit_done (init_done Sample.env "render" Sample.instanced))) =
    [4%positive].
Proof.
  assert (Hinit : render_init Sample.env "render" Sample.instanced =
                  Ok 0 (init_done Sample.env "render" Sample.instanced))
    by (vm_compute; reflexivity).
  destruct (index_buffer_reference Sample.env "render" Sample.instanced _
                                   eq_refl Hinit)
    as (_ & Hacq & _ & _ & _ & Hrel & _).
  split; [exact Hacq|exact Hrel].
Defined.

(** C7 as claimed: the flag would be cleared by the release, making a second
    uninit harmless.  After init and a first uninit of the sample node the
    flag is still 1, and the second uninit releases buffer 4 once more,
    taking its count of references below what it was before init. *)
Lemma index_buffer_reference_counterexample :
  render_init Sample.env "render" Sample.instanced =
    Ok 0 (init_done Sample.env "render" Sample.instanced) /\
  has_indices_buffer_ref
    (priv (after render_uninit
                 (init_done Sample.env "render" Sample.instanced))) = 1 /\
  releases (emitted render_uninit
              (after render_uninit
                     (init_done Sample.env "render" Sample.instanced))) =
    [4%positive] /\
  buffer_refcount (buffers Sample.instanced 4%positive) = 0 /\
  buffer_refcount
    (buffers (after render_uninit
                (after render_uninit
                   (init_done Sample.env "render" Sample.instanced)))
             4%positive) = -1.
Proof. repeat split; vm_compute; reflexivity. Qed.

(** C8. When init fails on an index buffer that references a block, the
    failure is returned after the reference on the index buffer has been
    acquired and the flag set to 1, and after the default program, if one
    was needed, has been created and attached; no draw procedure has been
    selected and nothing has been released.  A later [render_uninit]
    releases the reference. *)
Theorem init_fails_on_block_after_reference (E : externals) (label : string)
  (m : machine) (ib blk : node) :
  reaches_index_buffer E m ->
  indices_buffer (geometries m (geometry (priv m))) = Some ib ->
  (buffer_ref_result E ib <? 0) = false ->
  block (buffers m ib) = Some blk ->
  exists m',
    render_init E label m = Ok (-1) m' /\
    has_indices_buffer_ref (priv m') = 1 /\
    acquisitions (events_since m m') = [ib] /\
    releases (events_since m m') = [] /\
    buffer_refcount (buffers m' ib) = buffer_refcount (buffers m ib) + 1 /\
    program (priv m') = default_program E (priv m) /\
    (program (priv m) = None ->
     exists p, program (priv m') = Some p /\
               In (EvNodeCreate (NGL_NODE_PROGRAM E) (Some p))
                  (events_since m m') /\
               In (EvNodeAttachCtx p) (events_since m m')) /\
    draw (priv m') = draw (priv m) /\
    render_uninit m' = Ok tt (uninit_done m') /\
    releases (events_since m' (uninit_done m')) = [ib] /\
    buffer_refcount (buffers (uninit_done m') ib) =
      buffer_refcount (buffers m ib).
Proof.
  intros (H1 & H2 & H3 & H4 & H5) Hib Href Hblk.
  exists (emit_all
            (default_program_events E (priv m)
             ++ [EvBufferRef ib;
                 EvLog ERROR
                   "geometry indices buffers referencing a block are not supported"
                   []])
            (with_buffers (acquire ib (buffers m))
               (with_priv (fun s => set_has_indices_buffer_ref 1
                                      (set_program (default_program E s) s))
                          m))).
  split.
  { unfold render_init. open_body.
    destruct (program (priv m)) as [p|] eqn:Hp;
      [| destruct (H5 eq_refl) as (p & Hcreate & Hattach) ].
    all: clear H5.
    all: repeat (progress (run; fields; cbn [is_null];
                           rewrite ?upd_same;
                           repeat match goal with
                             | Hx : _ = _ |- _ => rewrite Hx
                             end)).
    all: f_equal; clear H1 H2 H3 H4; open_records m.
    all: unfold emit_all; compute_records.
    all: use_tests; rewrite <- ?app_assoc; reflexivity. }
  match goal with |- context [priv ?x] =>
    match x with emit_all _ _ => set (m' := x) end end.
  assert (Hev : events_since m m' =
                default_program_events E (priv m)
                ++ [EvBufferRef ib;
                    EvLog ERROR
                      "geometry indices buffers referencing a block are not supported"
                      []])
    by (apply events_since_app; reflexivity).
  assert (Hflag : has_indices_buffer_ref (priv m') = 1) by reflexivity.
  assert (Hgeo : indices_buffer (geometries m' (geometry (priv m'))) = Some ib)
    by exact Hib.
  assert (Hcnt : buffer_refcount (buffers m' ib) =
                 buffer_refcount (buffers m ib) + 1).
  { unfold m', emit_all, with_buffers, acquire. cbn [buffers].
    rewrite upd_same. reflexivity. }
  split; [exact Hflag|].
  split.
  { rewrite Hev, acquisitions_app, acquisitions_default_program. reflexivity. }
  split.
  { rewrite Hev. unfold releases. rewrite flat_map_app.
    unfold default_program_events. destruct (program (priv m)); [reflexivity|].
    destruct (node_create_result E (NGL_NODE_PROGRAM E)); reflexivity. }
  split; [exact Hcnt|].
  split; [reflexivity|].
  split.
  { intros Hp. destruct (H5 Hp) as (p & Hcreate & _). exists p.
    rewrite Hev. unfold m', default_program, default_program_events.
    cbn [priv emit_all with_buffers with_priv program
         set_has_indices_buffer_ref set_program].
    rewrite Hp, Hcreate. cbv zeta.
    split; [reflexivity|]. split; apply in_or_app; left.
    - left. reflexivity.
    - right. left. reflexivity. }
  split; [reflexivity|].
  split.
  { apply render_uninit_run. intros _. rewrite Hgeo. discriminate. }
  split.
  { rewrite releases_uninit_done, Hflag, Hgeo. reflexivity. }
  unfold uninit_done. cbn [buffers]. rewrite Hflag, Hgeo. cbn [Z.eqb].
  unfold release. rewrite upd_same. cbn [buffer_refcount set_refcount].
  rewrite Hcnt. lia.
Qed.

(** The sample geometry whose index buffer (8) references block 9. *)
Lemma init_fails_on_block_after_reference_witness :
  exists m',
    render_init Sample.env "render" Sample.blocked = Ok (-1) m' /\
    has_indices_buffer_ref (priv m') = 1 /\
    acquisitions (events_since Sample.blocked m') = [8%positive] /\
    program (priv m') = Some 100%positive /\
    releases (events_since m' (uninit_done m')) = [8%positive].
Proof.
  destruct (init_fails_on_block_after_reference
              Sample.env "render" Sample.blocked 8%positive 9%positive)
    as (m' & Hinit & Hflag & Hacq & _ & _ & Hprog & _ & _ & _ & Hrel & _).
  - unfold reaches_index_buffer. cbv zeta.
    repeat split; try reflexivity.
    intros _. exists 100%positive. split; reflexivity.
  - reflexivity.
  - reflexivity.
  - reflexivity.
  - exists m'. repeat split; assumption.
Defined.

(** ** [render_init], every exit *)

Ltac decided_in H :=
  repeat match goal with
    | Hx : (_ <? _) = _ |- _ => rewrite Hx in H
    | Hx : hmap_create_ok _ = _ |- _ => rewrite Hx in H
    end.

(** Runs [render_init] in [H] to every exit, reusing the tests already
    decided. *)
Ltac to_every_exit H :=
  repeat first
    [ progress (rewrite init_attributes_eq in H; cbv zeta in H; fields_in H;
                run_in H)
    | progress (fields_in H; rewrite ?upd_same in H; decided_in H; run_in H)
    | split_test_in H ].

Ltac negative_code :=
  first [ reflexivity
        | match goal with Hx : (?r <? 0) = true |- ?r < 0 =>
            apply Z.ltb_lt; exact Hx end ].

(** Every way out of [render_init]. *)
Lemma render_init_shape E label m r m' :
  render_init E label m = Ok r m' ->
  same_params (priv m) (priv m') /\
  (program (priv m) <> None -> program (priv m') = program (priv m)) /\
  geometries m' = geometries m /\
  features m' = features m /\
  (r = 0 \/
   (r < 0 /\ draw (priv m') = draw (priv m) /\ pass (priv m') = pass (priv m))) /\
  exists evs,
    trace m' = trace m ++ evs /\ releases evs = [] /\ reference_step m m' evs.
Proof.
  intros H. unfold render_init in H. open_body_in H. run_in H.
  split_test_in H.
  { finish_in H. unfold same_params, reference_step.
    repeat split; try (intros; reflexivity).
    - right. repeat split.
    - eexists. split; [reflexivity|]. split; [reflexivity|].
      left. repeat split. }
  split_test_in H.
  { finish_in H. unfold same_params, reference_step.
    repeat split; try (intros; reflexivity).
    - right. repeat split.
    - eexists. split; [reflexivity|]. split; [reflexivity|].
      left. repeat split. }
  split_test_in H; [|discriminate H].
  destruct (check_attributes_result _ _ _ _ _ Hc1) as [[-> ->]|[-> (? & ? & ->)]];
    run_in H.
  2:{ finish_in H. unfold same_params, reference_step.
      repeat split; try (intros; reflexivity).
      - right. repeat split.
      - eexists. split; [reflexivity|]. split; [reflexivity|].
        left. repeat split. }
  split_test_in H; [|discriminate H].
  destruct (check_attributes_result _ _ _ _ _ Hc2) as [[-> ->]|[-> (? & ? & ->)]];
    run_in H.
  2:{ finish_in H. unfold same_params, reference_step.
      repeat split; try (intros; reflexivity).
      - right. repeat split.
      - eexists. split; [reflexivity|]. split; [reflexivity|].
        left. repeat split. }
  to_every_exit H.
  all: finish_in H; same_some.
  all: try match goal with
         | Hx : None = Some _ |- _ => discriminate Hx
         | Hx : Some _ = None |- _ => discriminate Hx
         end.
  all: unfold same_params, reference_step.
  all: split; [repeat split; reflexivity|].
  all: split;
    [ intros Hp;
      first [ exfalso; apply Hp; reflexivity
            | fields; first [reflexivity | assumption] ] |].
  all: split; [reflexivity|]. 
  all: split; [reflexivity|].
  all: split;
    [ first [ left; reflexivity
            | right; split; [negative_code | split; reflexivity] ] |].
  all: eexists; split;
    [ first [ fields; rewrite <- ?app_assoc; reflexivity
            | symmetry; apply app_nil_r ] |].
  all: split; [reflexivity|].
  all: first
         [ left; split; [reflexivity | split; reflexivity]
         | right; eexists; split;
           [ eassumption | split; [reflexivity | split; reflexivity] ] ].
Qed.

(** ** Frame of [render_init] *)

Lemma acquire_same_data n b x : same_buffer_data (b x) (acquire n b x).
Proof.
  unfold acquire, upd, same_buffer_data.
  destruct (Pos.eqb_spec x n) as [->|_]; repeat split; reflexivity.
Qed.

Lemma acquire_refcount n b x :
  buffer_refcount (acquire n b x) =
  if Pos.eqb x n then buffer_refcount (b n) + 1 else buffer_refcount (b x).
Proof. unfold acquire, upd. destruct (Pos.eqb x n); reflexivity. Qed.

Lemma release_refcount n b x :
  buffer_refcount (release n b x) =
  if Pos.eqb x n then buffer_refcount (b n) - 1 else buffer_refcount (b x).
Proof. unfold release, upd. destruct (Pos.eqb x n); reflexivity. Qed.

(** X1. Whatever its outcome, [render_init] leaves the parameters of the
    node, a program the user supplied, the geometry and the context as they
    were; of the buffers it changes nothing but a count of references; it
    only adds to the trace, and it never releases a reference. *)
Theorem render_init_frame (E : externals) (label : string) (m m' : machine)
  (r : Z) :
  render_init E label m = Ok r m' ->
  same_params (priv m) (priv m') /\
  (forall p, program (priv m) = Some p -> program (priv m') = Some p) /\
  geometries m' = geometries m /\
  features m' = features m /\
  (forall n, same_buffer_data (buffers m n) (buffers m' n)) /\
  (exists evs, trace m' = trace m ++ evs /\ releases evs = []).
Proof.
  intros H.
  destruct (render_init_shape _ _ _ _ _ H)
    as (Hpar & Hprog & Hgeo & Hfeat & _ & evs & Htr & Hrel & Href).
  split; [exact Hpar|]. split.
  { intros p Hp. rewrite Hprog; [exact Hp|]. rewrite Hp. discriminate. }
  split; [exact Hgeo|]. split; [exact Hfeat|]. split.
  - intros n. destruct Href as [(_ & -> & _)|(ib & _ & _ & -> & _)].
    + repeat split.
    + apply acquire_same_data.
  - exists evs. split; assumption.
Qed.

(** A failing init (buffer 5 has three elements, four instances are asked
    for) on a node with a program of its own. *)
Lemma render_init_frame_witness :
  exists r m',
    render_init Sample.env "render"
      (with_priv (set_program (Some 77%positive))
         (Sample.scene Sample.indexed Sample.all_features
            (Sample.render None (Some [("offset", 5%positive)]) 4))) =
    Ok r m' /\
    r = -1 /\ program (priv m') = Some 77%positive /\
    nb_instances (priv m') = 4.
Proof.
  eexists. eexists. split; [vm_compute; reflexivity|].
  match goal with |- _ /\ program (priv ?x) = _ /\ _ =>
    destruct (render_init_frame Sample.env "render"
                (with_priv (set_program (Some 77%positive))
                   (Sample.scene Sample.indexed Sample.all_features
                      (Sample.render None (Some [("offset", 5%positive)]) 4)))
                x (-1))
      as (Hpar & Hprog & _)
  end.
  - vm_compute. reflexivity.
  - split; [reflexivity|]. split.
    + apply Hprog. reflexivity.
    + destruct Hpar as (_ & _ & _ & _ & _ & _ & Hnb). rewrite Hnb. reflexivity.
Defined.

(** ** A failed init *)

Lemma render_draw_no_procedure E m :
  draw (priv m) = None -> render_draw E m = Crash.
Proof.
  intros Hd. unfold render_draw. open_body. run.
  destruct (pass_bind_result E <? 0); run; fields; rewrite Hd; run;
    reflexivity.
Qed.

(** X2. The code [render_init] returns is zero or negative; when it is not
    zero, the draw procedure is as it was, so that a node that had no draw
    procedure still has none and drawing it calls through a null
    pointer. *)
Theorem failed_init_sets_no_draw (E : externals) (label : string)
  (m m' : machine) (r : Z) :
  render_init E label m = Ok r m' ->
  r <> 0 ->
  r < 0 /\
  draw (priv m') = draw (priv m) /\
  (draw (priv m) = None -> forall E', render_draw E' m' = Crash).
Proof.
  intros H Hr.
  destruct (render_init_shape _ _ _ _ _ H)
    as (_ & _ & _ & _ & [->|(Hneg & Hd & _)] & _).
  - exfalso. apply Hr. reflexivity.
  - split; [exact Hneg|]. split; [exact Hd|].
    intros Hnone E'. apply render_draw_no_procedure. rewrite Hd. exact Hnone.
Qed.

Lemma failed_init_sets_no_draw_witness :
  exists m',
    render_init Sample.env "render" Sample.blocked = Ok (-1) m' /\
    draw (priv m') = None /\
    render_draw Sample.env m' = Crash.
Proof.
  eexists. split; [vm_compute; reflexivity|].
  match goal with |- draw (priv ?x) = _ /\ _ =>
    destruct (failed_init_sets_no_draw Sample.env "render" Sample.blocked x (-1))
      as (_ & Hd & Hc)
  end.
  - vm_compute. reflexivity.
  - discriminate.
  - split; [rewrite Hd; reflexivity|]. apply Hc. reflexivity.
Defined.

(** ** References, on every path *)

Lemma release_acquire_refcount ib b x :
  buffer_refcount (release ib (acquire ib b) x) = buffer_refcount (b x).
Proof.
  rewrite release_refcount, !acquire_refcount, Pos.eqb_refl.
  destruct (Pos.eqb x ib) eqn:Hx.
  - apply Pos.eqb_eq in Hx. subst. lia.
  - reflexivity.
Qed.

(** X3. On a node whose flag is clear, [render_uninit] undoes the
    references of [render_init] whatever init returned: it returns, it
    releases exactly the buffers init acquired, and every buffer has the
    count of references it had before init. *)
Theorem init_uninit_balanced (E : externals) (label : string)
  (m m' : machine) (r : Z) :
  has_indices_buffer_ref (priv m) = 0 ->
  render_init E label m = Ok r m' ->
  render_uninit m' = Ok tt (uninit_done m') /\
  releases (events_since m' (uninit_done m')) =
    acquisitions (events_since m m') /\
  (forall n, buffer_refcount (buffers (uninit_done m') n) =
             buffer_refcount (buffers m n)).
Proof.
  intros Hflag H.
  destruct (render_init_shape _ _ _ _ _ H)
    as (Hpar & _ & Hgeo & _ & _ & evs & Htr & _ & Href).
  assert (Hg : geometries m' (geometry (priv m')) =
               geometries m (geometry (priv m))).
  { destruct Hpar as (-> & _). rewrite Hgeo. reflexivity. }
  rewrite (events_since_app _ _ _ Htr), releases_uninit_done.
  destruct Href as [(Hf & Hb & Hacq)|(ib & Hib & Hf & Hb & Hacq)].
  - assert (Hz : has_indices_buffer_ref (priv m') = 0) by congruence.
    split; [apply render_uninit_run; intros Hn; contradiction|].
    rewrite Hacq, Hz. split; [reflexivity|].
    intros n. unfold uninit_done. fields. rewrite Hz. cbn. rewrite Hb.
    reflexivity.
  - split.
    { apply render_uninit_run. intros _. rewrite Hg, Hib. discriminate. }
    rewrite Hacq, Hf, Hg, Hib. split; [reflexivity|].
    intros n. unfold uninit_done. fields. rewrite Hf, Hg, Hib. cbn.
    rewrite Hb. apply release_acquire_refcount.
Qed.

(** The reference taken before the block test fails is given back. *)
Lemma init_uninit_balanced_witness :
  exists m',
    render_init Sample.env "render" Sample.blocked = Ok (-1) m' /\
    acquisitions (events_since Sample.blocked m') = [8%positive] /\
    releases (events_since m' (uninit_done m')) = [8%positive] /\
    buffer_refcount (buffers (uninit_done m') 8%positive) = 0.
Proof.
  eexists. split; [vm_compute; reflexivity|].
  match goal with |- acquisitions (events_since _ ?x) = _ /\ _ =>
    destruct (init_uninit_balanced Sample.env "render" Sample.blocked x (-1))
      as (_ & Hrel & Hcount)
  end.
  - reflexivity.
  - vm_compute. reflexivity.
  - split; [vm_compute; reflexivity|]. split.
    + rewrite Hrel. vm_compute. reflexivity.
    + rewrite Hcount. reflexivity.
Defined.

(** ** Two render nodes on one index buffer *)

Lemma init_done_buffers E label m ib :
  indices_buffer (geometries m (geometry (priv m))) = Some ib ->
  buffers (init_done E label m) = acquire ib (buffers m) /\
  has_indices_buffer_ref (priv (init_done E label m)) = 1 /\
  geometries (init_done E label m) = geometries m /\
  geometry (priv (init_done E label m)) = geometry (priv m).
Proof.
  intros Hib. unfold init_done. fields. rewrite Hib. repeat split.
Qed.

Lemma uninit_done_buffers m ib :
  has_indices_buffer_ref (priv m) = 1 ->
  indices_buffer (geometries m (geometry (priv m))) = Some ib ->
  render_uninit m = Ok tt (uninit_done m) /\
  buffers (uninit_done m) = release ib (buffers m) /\
  geometries (uninit_done m) = geometries m.
Proof.
  intros Hf Hib. split.
  - apply render_uninit_run. intros _. rewrite Hib. discriminate.
  - unfold uninit_done. fields. rewrite Hf, Hib. split; reflexivity.
Qed.

(** X4. Two render nodes whose geometries have the same index buffer each
    hold one reference on it: after both inits its count is two higher,
    the uninit of one node leaves the reference of the other, and the
    uninit of both restores the count. *)
Theorem shared_index_buffer (E : externals) (l1 l2 : string)
  (m m1 m2 : machine) (s2 : render_priv) (ib : node) :
  indices_buffer (geometries m (geometry (priv m))) = Some ib ->
  indices_buffer (geometries m (geometry s2)) = Some ib ->
  render_init E l1 m = Ok 0 m1 ->
  render_init E l2 (switch_to s2 m1) = Ok 0 m2 ->
  let m3 := uninit_done m2 in
  let m4 := uninit_done (switch_to (priv m1) m3) in
  buffer_refcount (buffers m2 ib) = buffer_refcount (buffers m ib) + 2 /\
  render_uninit m2 = Ok tt m3 /\
  buffer_refcount (buffers m3 ib) = buffer_refcount (buffers m ib) + 1 /\
  render_uninit (switch_to (priv m1) m3) = Ok tt m4 /\
  buffer_refcount (buffers m4 ib) = buffer_refcount (buffers m ib).
Proof.
  intros Hib1 Hib2 H1 H2 m3 m4.
  destruct (render_init_success _ _ _ _ _ H1 eq_refl) as (_ & -> & _).
  destruct (render_init_success _ _ _ _ _ H2 eq_refl) as (_ & -> & _).
  destruct (init_done_buffers E l1 m ib Hib1) as (Hb1 & Hf1 & Hg1 & Hn1).
  assert (Hib2' : indices_buffer
                    (geometries (switch_to s2 (init_done E l1 m))
                       (geometry (priv (switch_to s2 (init_done E l1 m))))) =
                  Some ib).
  { unfold switch_to. fields. rewrite Hg1. exact Hib2. }
  destruct (init_done_buffers E l2 _ ib Hib2') as (Hb2 & Hf2 & Hg2 & Hn2).
  assert (Hib3 : indices_buffer
                   (geometries (init_done E l2 (switch_to s2 (init_done E l1 m)))
                      (geometry (priv (init_done E l2
                                         (switch_to s2 (init_done E l1 m)))))) =
                 Some ib).
  { rewrite Hg2, Hn2. exact Hib2'. }
  destruct (uninit_done_buffers _ ib Hf2 Hib3) as (Hu3 & Hb3 & Hg3).
  fold m3 in Hu3, Hb3, Hg3.
  assert (Hib4 : indices_buffer
                   (geometries (switch_to (priv (init_done E l1 m)) m3)
                      (geometry (priv (switch_to (priv (init_done E l1 m)) m3)))) =
                 Some ib).
  { unfold switch_to at 1 2. fields. rewrite Hg3, Hg2.
    unfold switch_to. fields. rewrite Hg1, Hn1. exact Hib1. }
  assert (Hf4 : has_indices_buffer_ref
                  (priv (switch_to (priv (init_done E l1 m)) m3)) = 1).
  { unfold switch_to. fields. exact Hf1. }
  destruct (uninit_done_buffers _ ib Hf4 Hib4) as (Hu4 & Hb4 & _).
  fold m4 in Hu4, Hb4.
  assert (Hbs : buffers (switch_to s2 (init_done E l1 m)) =
                buffers (init_done E l1 m)) by reflexivity.
  assert (Hbs' : buffers (switch_to (priv (init_done E l1 m)) m3) = buffers m3)
    by reflexivity.
  split.
  { rewrite Hb2, Hbs, Hb1, !acquire_refcount, Pos.eqb_refl. lia. }
  split; [exact Hu3|]. split.
  { rewrite Hb3, Hb2, release_acquire_refcount, Hbs, Hb1, acquire_refcount,
      Pos.eqb_refl. reflexivity. }
  split; [exact Hu4|].
  rewrite Hb4, Hbs', Hb3, release_refcount, Pos.eqb_refl,
    Hb2, release_acquire_refcount, Hbs, Hb1, acquire_refcount, Pos.eqb_refl.
  lia.
Qed.

Lemma shared_index_buffer_witness :
  buffer_refcount (buffers Pair.both_ready 4%positive) = 2 /\
  buffer_refcount (buffers (uninit_done Pair.both_ready) 4%positive) = 1 /\
  buffer_refcount
    (buffers (uninit_done (switch_to (priv Pair.first_ready)
                                     (uninit_done Pair.both_ready)))
             4%positive) = 0.
Proof.
  destruct (shared_index_buffer Sample.env "first" "second" Sample.instanced
              Pair.first_ready Pair.both_ready Pair.second 4%positive)
    as (H2 & _ & H1 & _ & H0).
  - reflexivity.
  - reflexivity.
  - vm_compute. reflexivity.
  - vm_compute. reflexivity.
  - split; [exact H2|]. split; [exact H1|exact H0].
Defined.

(** ** The capability tests come first *)

(** X5. A node that asks for instances ([nb_instances] not zero, of either
    sign) on a context without instanced draws, or that has per-instance
    attributes on a context without instanced arrays, is refused before
    anything else is looked at: [render_init] returns -1 and has only
    written its log line, also where the validation that follows would
    have read through a null vertex buffer. *)
Theorem capability_tests_first (E : externals) (label : string) (m : machine) :
  (nb_instances (priv m) <> 0 ->
   lacks (NGLI_FEATURE_DRAW_INSTANCED E) m ->
   render_init E label m =
   Ok (-1) (emit (EvLog ERROR "context does not support instanced draws" []) m)) /\
  (nb_instances (priv m) = 0 \/ ~ lacks (NGLI_FEATURE_DRAW_INSTANCED E) m ->
   instance_attributes (priv m) <> None ->
   lacks (NGLI_FEATURE_INSTANCED_ARRAY E) m ->
   render_init E label m =
   Ok (-1) (emit (EvLog ERROR "context does not support instanced arrays" []) m)).
Proof.
  unfold lacks. split.
  - intros Hn Hl. unfold render_init. open_body. run.
    apply negb_eqb_0 in Hn. apply Z.eqb_eq in Hl. rewrite Hn, Hl.
    cbn [andb]. run. reflexivity.
  - intros Hfirst Hia Hl. unfold render_init. open_body. run.
    assert (H1 : (negb (nb_instances (priv m) =? 0)
                  && (Z.land (features m) (NGLI_FEATURE_DRAW_INSTANCED E) =? 0))
                 = false).
    { destruct Hfirst as [->|Hf]; [reflexivity|].
      apply Z.eqb_neq in Hf. rewrite Hf. apply andb_false_r. }
    rewrite H1. run.
    destruct (instance_attributes (priv m)) as [h|]; [|contradiction].
    apply Z.eqb_eq in Hl. rewrite Hl. cbn [is_null negb andb]. run.
    reflexivity.
Qed.

Lemma capability_tests_first_witness :
  render_init Sample.env "render" Sample.negative =
    Ok (-1) (emit (EvLog ERROR "context does not support instanced draws" [])
               Sample.negative) /\
  render_init Sample.env "render"
    (Sample.scene
       {| vertices_buffer := None; uvcoords_buffer := None;
          normals_buffer := None; indices_buffer := None; topology := 4 |}
       0x1000
       (Sample.render (Some [("color", 5%positive)])
                      (Some [("offset", 5%positive)]) 3)) =
  Ok (-1) (emit (EvLog ERROR "context does not support instanced arrays" [])
             (Sample.scene
                {| vertices_buffer := None; uvcoords_buffer := None;
                   normals_buffer := None; indices_buffer := None;
                   topology := 4 |}
                0x1000
                (Sample.render (Some [("color", 5%positive)])
                               (Some [("offset", 5%positive)]) 3))).
Proof.
  split.
  - apply capability_tests_first.
    + discriminate.
    + reflexivity.
  - apply capability_tests_first.
    + right. unfold lacks. vm_compute. discriminate.
    + discriminate.
    + reflexivity.
Defined.

(** ** [render_update] *)

(** X7. [render_update] updates the geometry first and stops there, with
    the geometry's code, when that fails; only otherwise is the pass
    updated, and its code returned.  The private data of the node is not
    written, nor are the context's features. *)
Theorem render_update_first_failure (E : externals) (t : float) (m : machine) :
  let geo := node_update_result E (geometry (priv m)) t in
  exists m',
    render_update E t m =
      Ok (if geo <? 0 then geo else pass_update_result E t) m' /\
    priv m' = priv m /\
    features m' = features m /\
    events_since m m' =
      EvNodeUpdate (geometry (priv m)) t ::
      (if geo <? 0 then [] else [EvPassUpdate t]).
Proof.
  intros geo. unfold render_update. open_body. run. fold geo.
  destruct (geo <? 0); run; eexists; (split; [reflexivity|]);
    (split; [reflexivity|]); (split; [reflexivity|]);
    apply events_since_app; fields; rewrite <- ?app_assoc; reflexivity.
Qed.

(** ** [render_draw] *)

Lemma draw_code_null E f m :
  draw_buffer m f = None -> draw_code E f m = Crash.
Proof.
  intros Hb.
  destruct f; unfold draw_buffer in Hb; unfold draw_code, draw_elements,
    draw_elements_instanced, draw_arrays, draw_arrays_instanced;
    open_body; run; rewrite Hb; run; reflexivity.
Qed.

Lemma render_draw_null E m f :
  draw (priv m) = Some f -> draw_buffer m f = None -> render_draw E m = Crash.
Proof.
  intros Hd Hb. unfold render_draw. open_body. run.
  destruct (pass_bind_result E <? 0); run; fields; rewrite Hd; run.
  - rewrite (draw_code_null E f); [reflexivity|exact Hb].
  - rewrite (draw_code_null E f); [reflexivity|exact Hb].
Qed.

(** X8. [render_draw] reads through a null pointer in two cases and no
    other: the draw procedure was never set, or the procedure set finds the
    buffer it counts (index buffer for the element procedures, vertex
    buffer for the array procedures) null in the geometry.  The codes of
    the pass play no part. *)
Theorem render_draw_crash_iff (E : externals) (m : machine) :
  render_draw E m = Crash <->
  draw (priv m) = None \/
  (exists f, draw (priv m) = Some f /\ draw_buffer m f = None).
Proof.
  split.
  - intros H. destruct (draw (priv m)) as [f|] eqn:Hd; [|left; reflexivity].
    right. exists f. split; [reflexivity|].
    destruct (draw_buffer m f) as [b|] eqn:Hb; [|reflexivity].
    rewrite (render_draw_run E m f b Hd Hb) in H. discriminate H.
  - intros [Hd|(f & Hd & Hb)].
    + apply render_draw_no_procedure. exact Hd.
    + apply (render_draw_null E m f Hd Hb).
Qed.

Lemma render_draw_inv E m m' :
  render_draw E m = Ok tt m' ->
  exists f b,
    draw (priv m) = Some f /\ draw_buffer m f = Some b /\
    m' = emit_all ([EvPassBind] ++ bind_log E ++ draw_events E m f b
                   ++ [EvPassUnbind] ++ unbind_log E) m.
Proof.
  intros H.
  destruct (draw (priv m)) as [f|] eqn:Hd.
  2:{ rewrite (render_draw_no_procedure E m Hd) in H. discriminate H. }
  destruct (draw_buffer m f) as [b|] eqn:Hb.
  2:{ rewrite (render_draw_null E m f Hd Hb) in H. discriminate H. }
  rewrite (render_draw_run E m f b Hd Hb) in H. injection H as <-.
  exists f, b. split; [reflexivity|]. split; [exact Hb|reflexivity].
Qed.

Lemma events_without_references E m f b :
  acquisitions ([EvPassBind] ++ bind_log E ++ draw_events E m f b
                ++ [EvPassUnbind] ++ unbind_log E) = [] /\
  releases ([EvPassBind] ++ bind_log E ++ draw_events E m f b
            ++ [EvPassUnbind] ++ unbind_log E) = [].
Proof.
  unfold bind_log, unbind_log, draw_events.
  destruct (pass_bind_result E <? 0), (pass_unbind_result E <? 0), f;
    split; reflexivity.
Qed.

(** X9. A draw that returns has written nothing but the trace: private
    data, geometry, buffers and features are as before, and no reference
    is acquired or released.  So it leaves no mark on the next draw:
    whatever the pass answers to the next bind and unbind, the next draw
    returns too and emits what it would have emitted had the first draw
    not taken place. *)
Theorem render_draw_repeatable (E : externals) (m m' : machine) :
  render_draw E m = Ok tt m' ->
  priv m' = priv m /\ geometries m' = geometries m /\
  buffers m' = buffers m /\ features m' = features m /\
  acquisitions (events_since m m') = [] /\
  releases (events_since m m') = [] /\
  forall E',
    render_draw E' m' <> Crash /\
    emitted (render_draw E') m' = emitted (render_draw E') m.
Proof.
  intros H. destruct (render_draw_inv _ _ _ H) as (f & b & Hd & Hb & ->).
  rewrite events_since_emit_all.
  destruct (events_without_references E m f b) as (Hacq & Hrel).
  repeat (split; [first [reflexivity | assumption]|]).
  set (evs := [EvPassBind] ++ bind_log E ++ draw_events E m f b
              ++ [EvPassUnbind] ++ unbind_log E) in *.
  intros E'.
  pose proof (render_draw_run E' m f b Hd Hb) as Hfirst.
  assert (Hnext : render_draw E' (emit_all evs m) =
                  Ok tt (emit_all
                           ([EvPassBind] ++ bind_log E' ++ draw_events E' m f b
                            ++ [EvPassUnbind] ++ unbind_log E')
                           (emit_all evs m))).
  { apply (render_draw_run E' (emit_all evs m) f b); assumption. }
  split.
  - rewrite Hnext. discriminate.
  - unfold emitted, after. rewrite Hnext, Hfirst, !events_since_emit_all.
    reflexivity.
Qed.

(** A second draw whose bind and unbind fail, after a first one whose bind
    and unbind succeeded. *)
Lemma render_draw_repeatable_witness :
  emitted (render_draw Sample.env_bind_fails)
          (after (render_draw Sample.env)
                 (init_done Sample.env "render" Sample.instanced)) =
  [EvPassBind; EvLog ERROR "pass upload data error" [];
   EvGlBindBuffer GL_ELEMENT_ARRAY_BUFFER 40;
   EvGlDrawElementsInstanced 4 6 7 0 3;
   EvPassUnbind; EvLog ERROR "could not unbind pass" []].
Proof.
  destruct (render_draw_repeatable Sample.env
              (init_done Sample.env "render" Sample.instanced)
              (after (render_draw Sample.env)
                     (init_done Sample.env "render" Sample.instanced)))
    as (_ & _ & _ & _ & _ & _ & Hnext).
  - vm_compute. reflexivity.
  - destruct (Hnext Sample.env_bind_fails) as (_ & Hsame).
    rewrite Hsame. vm_compute. reflexivity.
Defined.

(** X10. From init to the graphics API: at any point [m] of the life of a
    node whose init succeeded, a draw issues an instanced invocation only
    with the [nb_instances] the node had at init, which is then positive,
    and a plain one only when that [nb_instances] is zero or negative. *)
Theorem instanced_calls_are_positive (E0 E : externals) (label : string)
  (m0 m1 m m' : machine) (e : event) :
  render_init E0 label m0 = Ok 0 m1 ->
  later m1 m ->
  render_draw E m = Ok tt m' ->
  In e (events_since m m') ->
  match instancing_of e with
  | Some (Some n) => n = nb_instances (priv m0) /\ 0 < n
  | Some None => nb_instances (priv m0) <= 0
  | None => True
  end.
Proof.
  intros Hinit Hl Hdraw Hin.
  destruct (render_init_success _ _ _ _ _ Hinit eq_refl) as (_ & -> & _).
  destruct (render_draw_inv _ _ _ Hdraw) as (f & b & Hd & Hb & ->).
  rewrite events_since_emit_all in Hin.
  rewrite (later_draw_table _ _ _ _ Hl) in Hd. injection Hd as <-.
  assert (Hnb : nb_instances (priv m) = nb_instances (priv m0)).
  { rewrite (later_priv _ _ Hl). reflexivity. }
  unfold bind_log, unbind_log, draw_events, draw_call, draw_table in Hin.
  cbv zeta in Hin. rewrite Hnb in Hin.
  destruct (has_indices m0), (0 <? nb_instances (priv m0)) eqn:Hpos,
    (pass_bind_result E <? 0), (pass_unbind_result E <? 0);
    cbn [app In] in Hin;
    repeat match goal with
      | Hx : _ \/ _ |- _ => destruct Hx as [<-|Hx]
      | Hx : False |- _ => destruct Hx
      end;
    cbn [instancing_of];
    first [ exact I
          | apply Z.ltb_lt in Hpos; split; [reflexivity|exact Hpos]
          | apply Z.ltb_ge in Hpos; exact Hpos ].
Qed.

(** The second draw of the instanced sample node, after an update. *)
Lemma instanced_calls_are_positive_witness :
  emitted (render_draw Sample.env) Frames.second_frame =
    [EvPassBind; EvGlBindBuffer GL_ELEMENT_ARRAY_BUFFER 40;
     EvGlDrawElementsInstanced 4 6 7 0 3; EvPassUnbind] /\
  3 = nb_instances (priv Sample.instanced) /\ 0 < 3.
Proof.
  split; [vm_compute; reflexivity|].
  assert (Hup : render_update Sample.env PrimFloat.one
                  (init_done Sample.env "render" Sample.instanced) =
                Ok 0 (after (render_update Sample.env PrimFloat.one)
                            (init_done Sample.env "render" Sample.instanced)))
    by (vm_compute; reflexivity).
  assert (Hdraw : render_draw Sample.env
                    (after (render_update Sample.env PrimFloat.one)
                           (init_done Sample.env "render" Sample.instanced)) =
                  Ok tt Frames.second_frame)
    by (vm_compute; reflexivity).
  apply (instanced_calls_are_positive Sample.env Sample.env "render"
           Sample.instanced
           (init_done Sample.env "render" Sample.instanced)
           Frames.second_frame
           (after (render_draw Sample.env) Frames.second_frame)
           (EvGlDrawElementsInstanced 4 6 7 0 3)).
  - vm_compute. reflexivity.
  - exact (later_draw _ _ _ _ (later_update _ _ _ _ _ _ (later_init _) Hup)
             Hdraw).
  - vm_compute. reflexivity.
  - vm_compute. right. right. left. reflexivity.
Defined.

(** ** Outcomes of [check_attributes] *)

Lemma verdict_returns logline expected m h :
  exists r m', verdict logline expected m h = Ok r m'.
Proof.
  unfold verdict.
  destruct (first_mismatch (buffer_count m) expected (entries h))
    as [[key c]|]; eexists; eexists; reflexivity.
Qed.

(** X11. [check_attributes] reads through a null pointer in one case
    only: per-vertex validation of a map with at least one entry on a
    geometry without vertex buffer.  Per-instance validation never does,
    and neither does an absent or empty map.  When the function returns,
    the code is 0 and nothing was written, or -1 and one error line was
    logged. *)
Theorem check_attributes_outcomes (attrs : option hmap) (per_instance : Z)
  (m : machine) :
  (check_attributes attrs per_instance m = Crash <->
   per_instance = 0 /\
   vertices_buffer (geometries m (geometry (priv m))) = None /\
   exists e l, attrs = Some (e :: l)) /\
  (forall r m',
      check_attributes attrs per_instance m = Ok r m' ->
      (r = 0 /\ m' = m) \/
      (r = -1 /\ exists key c expected,
                   m' = emit (mismatch_log per_instance key c expected) m)).
Proof.
  split.
  - split.
    + intros H. destruct attrs as [h|].
      2:{ unfold check_attributes in H. open_body_in H. run_in H.
          discriminate H. }
      destruct (Z.eq_dec per_instance 0) as [->|Hpi].
      * destruct (vertices_buffer (geometries m (geometry (priv m))))
          as [vb|] eqn:Hvb.
        { exfalso. revert H. apply (check_attributes_no_crash _ _ _ vb Hvb). }
        rewrite (check_attributes_no_vertices h m Hvb) in H.
        destruct h as [|e l]; [discriminate H|].
        split; [reflexivity|]. split; [reflexivity|].
        exists e, l. reflexivity.
      * rewrite (check_attributes_per_instance h per_instance m Hpi) in H.
        destruct (verdict_returns instance_mismatch_log
                    (nb_instances (priv m)) m h) as (r & m' & Hv).
        rewrite Hv in H. discriminate H.
    + intros (-> & Hvb & e & l & ->).
      apply (check_attributes_no_vertices (e :: l) m Hvb).
  - intros r m' H. destruct attrs as [h|].
    2:{ unfold check_attributes in H. open_body_in H. run_in H.
        injection H as <- <-. left. split; reflexivity. }
    assert (Hcases : forall expected,
               check_attributes (Some h) per_instance m =
               verdict (mismatch_log per_instance) expected m h ->
               (r = 0 /\ m' = m) \/
               (r = -1 /\ exists key c expected,
                   m' = emit (mismatch_log per_instance key c expected) m)).
    { intros expected Heq. rewrite Heq in H. unfold verdict in H.
      destruct (first_mismatch (buffer_count m) expected (entries h))
        as [[key c]|]; injection H as <- <-.
      - right. split; [reflexivity|]. exists key, c, expected. reflexivity.
      - left. split; reflexivity. }
    destruct (expected_count m per_instance) as [expected|] eqn:Hex.
    + apply (Hcases expected).
      apply check_attributes_verdict. exact Hex.
    + unfold expected_count in Hex.
      destruct (per_instance =? 0) eqn:Hpi; [|discriminate Hex].
      apply Z.eqb_eq in Hpi. subst per_instance.
      destruct (vertices_buffer (geometries m (geometry (priv m))))
        as [vb|] eqn:Hvb; [discriminate Hex|].
      rewrite (check_attributes_no_vertices h m Hvb) in H.
      destruct h as [|e l]; [|discriminate H].
      injection H as <- <-. left. split; reflexivity.
Qed.

(** ** Outcomes of [init_attributes] *)

Lemma set_all_failure E l : forall h,
  (fst (set_all E h l) <? 0) = true ->
  exists pre key data post,
    l = pre ++ (key, data) :: post /\
    snd (set_all E h l) = set_entries h pre /\
    fst (set_all E h l) = hmap_set_result E (set_entries h pre) key data.
Proof.
  induction l as [|[key data] l IH]; intros h H; cbn [set_all] in *.
  - discriminate H.
  - cbv zeta in *.
    destruct (hmap_set_result E h key data <? 0) eqn:Hret.
    + exists [], key, data, l. repeat split.
    + destruct (IH _ H) as (pre & k & d & post & -> & Hsnd & Hfst).
      exists ((key, data) :: pre), k, d, post. repeat split; assumption.
Qed.

(** X12. [init_attributes] always returns and writes [pass_attributes]
    only.  Its three outcomes: 0 with every insertion made; -1 with a null
    map when the map cannot be created; the code of the first insertion
    that fails, with the map of the insertions made before it (the map is
    not freed on that path). *)
Theorem init_attributes_outcomes (E : externals) (m : machine) :
  let ins := insertions (attributes (priv m))
                        (geometries m (geometry (priv m))) in
  exists r m',
    init_attributes E m = Ok r m' /\
    m' = with_priv (set_pass_attributes (pass_attributes (priv m'))) m /\
    ((r = 0 /\ pass_attributes (priv m') = Some (set_entries [] ins)) \/
     (r = -1 /\ hmap_create_ok E = false /\
      pass_attributes (priv m') = None) \/
     (r < 0 /\ hmap_create_ok E = true /\
      exists pre key data post,
        ins = pre ++ (key, data) :: post /\
        pass_attributes (priv m') = Some (set_entries [] pre) /\
        r = hmap_set_result E (set_entries [] pre) key data)).
Proof.
  intros ins. rewrite init_attributes_eq. cbv zeta. fold ins.
  destruct (hmap_create_ok E) eqn:Hcreate.
  - eexists. eexists. split; [reflexivity|]. split; [reflexivity|].
    destruct (fst (set_all E [] ins) <? 0) eqn:Hret.
    + right. right. split; [apply Z.ltb_lt; exact Hret|].
      split; [reflexivity|].
      destruct (set_all_failure E ins [] Hret)
        as (pre & key & data & post & Hins & Hsnd & Hfst).
      exists pre, key, data, post. split; [exact Hins|].
      split; [fields; rewrite Hsnd; reflexivity|exact Hfst].
    + left. rewrite (set_all_ok E ins [] Hret). split; reflexivity.
  - eexists. eexists. split; [reflexivity|]. split; [reflexivity|].
    right. left. repeat split.
Qed.

(** ** A count mismatch is found before any resource is touched *)

(** X6. When some attribute buffer has the wrong element count,
    [render_init], if it returns, returns -1 having written one error line
    and nothing else: no program was created, no reference acquired, no
    map built, no pass initialised. *)
Theorem mismatch_refused_early (E : externals) (label : string)
  (m m' : machine) (r : Z) :
  render_init E label m = Ok r m' ->
  vertex_count_mismatch m \/ instance_count_mismatch m ->
  r = -1 /\ exists fmt args, m' = emit (EvLog ERROR fmt args) m.
Proof.
  intros H Hmis. unfold render_init in H. open_body_in H. run_in H.
  split_test_in H.
  { finish_in H. split; [reflexivity|]. eexists. eexists. reflexivity. }
  split_test_in H.
  { finish_in H. split; [reflexivity|]. eexists. eexists. reflexivity. }
  split_test_in H; [|discriminate H].
  destruct (check_attributes_result _ _ _ _ _ Hc1)
    as [[-> ->]|[-> (fmt & args & ->)]]; run_in H.
  2:{ finish_in H. split; [reflexivity|]. exists fmt, args. reflexivity. }
  split_test_in H; [|discriminate H].
  destruct (check_attributes_result _ _ _ _ _ Hc2)
    as [[-> ->]|[-> (fmt & args & ->)]]; run_in H.
  2:{ finish_in H. split; [reflexivity|]. exists fmt, args. reflexivity. }
  exfalso. destruct Hmis as [Hv|Hi].
  - exact (check_vertices_pass m Hc1 Hv).
  - exact (check_instances_pass m Hc2 Hi).
Qed.

Lemma mismatch_refused_early_witness :
  exists m',
    render_init Sample.env "render" Sample.stray = Ok (-1) m' /\
    trace m' = [instance_mismatch_log "offset" 3 0] /\
    exists fmt args, m' = emit (EvLog ERROR fmt args) Sample.stray.
Proof.
  eexists. split; [vm_compute; reflexivity|]. split; [reflexivity|].
  apply (mismatch_refused_early Sample.env "render" Sample.stray _ (-1)).
  - vm_compute. reflexivity.
  - right. exists [("offset", 5%positive)], "offset", 5%positive.
    split; [reflexivity|]. split; [left; reflexivity|].
    vm_compute. discriminate.
Defined.

(** ** The derived attribute map: its names *)

Lemma hmap_set_keys h key data name :
  In name (keys (ngli_hmap_set h key data)) <-> name = key \/ In name (keys h).
Proof.
  induction h as [|[k d] h IH]; cbn [ngli_hmap_set keys map fst In].
  - intuition.
  - destruct (String.eqb_spec k key) as [->|Hk];
      cbn [keys map fst In]; unfold keys in IH; rewrite ?IH; intuition.
Qed.

Lemma hmap_set_wf h key data : Hmap.wf h -> Hmap.wf (ngli_hmap_set h key data).
Proof.
  unfold Hmap.wf. induction h as [|[k d] h IH];
    cbn [ngli_hmap_set keys map fst]; intros Hwf.
  - constructor; [intros []|constructor].
  - inversion Hwf as [|? ? Hnot Hrest]; subst.
    destruct (String.eqb_spec k key) as [->|Hk]; cbn [keys map fst].
    + constructor; assumption.
    + constructor; [|apply IH; exact Hrest].
      intros Hin. apply (hmap_set_keys h key data k) in Hin.
      destruct Hin as [->|Hin]; [apply Hk; reflexivity|apply Hnot; exact Hin].
Qed.

Lemma hmap_set_length h key data :
  (List.length (ngli_hmap_set h key data) <= S (List.length h))%nat.
Proof.
  induction h as [|[k d] h IH]; cbn [ngli_hmap_set List.length].
  - lia.
  - destruct (String.eqb k key); cbn [List.length]; lia.
Qed.

Lemma set_entries_keys l : forall h name,
  In name (keys (set_entries h l)) <-> In name (keys h) \/ In name (map fst l).
Proof.
  unfold set_entries.
  induction l as [|[k d] l IH]; intros h name; cbn [fold_left map fst snd In].
  - intuition.
  - rewrite IH, hmap_set_keys. intuition.
Qed.

Lemma set_entries_wf l : forall h, Hmap.wf h -> Hmap.wf (set_entries h l).
Proof.
  unfold set_entries.
  induction l as [|[k d] l IH]; intros h Hwf; cbn [fold_left fst snd].
  - exact Hwf.
  - apply IH, hmap_set_wf, Hwf.
Qed.

Lemma set_entries_length l : forall h,
  (List.length (set_entries h l) <= List.length h + List.length l)%nat.
Proof.
  unfold set_entries.
  induction l as [|[k d] l IH]; intros h; cbn [fold_left fst snd List.length].
  - lia.
  - specialize (IH (ngli_hmap_set h k d)).
    pose proof (hmap_set_length h k d). lia.
Qed.

Lemma hmap_get_keys h name :
  ngli_hmap_get h name <> None <-> In name (keys h).
Proof.
  induction h as [|[k d] h IH]; cbn [ngli_hmap_get keys map fst In].
  - intuition.
  - destruct (String.eqb_spec k name) as [->|Hk]; unfold keys in IH.
    + split; [intros _; left; reflexivity|intros _; discriminate].
    + rewrite IH. intuition.
Qed.

Lemma builtin_entries_length g : (List.length (builtin_entries g) <= 3)%nat.
Proof.
  unfold builtin_entries, present, attrib_const_map. cbn [flat_map].
  destruct (vertices_buffer g), (uvcoords_buffer g), (normals_buffer g);
    cbn [app List.length]; lia.
Qed.

(** X13. After a successful init the names of [pass_attributes] are
    unique, whatever the user's map was; a name is in it exactly when it is
    a name of the user's map or the reserved name of a slot the geometry
    has; and it has at most three entries more than the user's map. *)
Theorem pass_attributes_names (E : externals) (label : string)
  (m m' : machine) :
  render_init E label m = Ok 0 m' ->
  exists pa,
    pass_attributes (priv m') = Some pa /\
    Hmap.wf pa /\
    (forall name,
        In name (keys pa) <->
        In name (user_names (priv m)) \/
        builtin_slot (geometries m (geometry (priv m))) name <> None) /\
    (List.length pa <= List.length (user_names (priv m)) + 3)%nat.
Proof.
  intros H.
  destruct (render_init_success _ _ _ _ _ H eq_refl) as (_ & -> & _).
  eexists. split; [reflexivity|].
  set (g := geometries m (geometry (priv m))).
  split; [apply set_entries_wf; constructor|]. split.
  - intros name. rewrite <- hmap_get_keys, insertions_aggregate, aggregate_get.
    fold g. unfold user_names, copy_entries.
    destruct (builtin_slot g name) as [b|].
    + split; [intros _; right; discriminate|intros _; discriminate].
    + rewrite hmap_get_keys.
      destruct (attributes (priv m)) as [h|].
      * rewrite set_entries_keys. unfold ngli_hmap_create, entries, keys.
        cbn [map In]. intuition.
      * unfold ngli_hmap_create. cbn [keys map In]. intuition.
  - pose proof (set_entries_length
                  (insertions (attributes (priv m)) g) []) as Hlen.
    unfold insertions in Hlen. rewrite length_app in Hlen.
    pose proof (builtin_entries_length g). unfold user_names.
    destruct (attributes (priv m)) as [h|];
      unfold keys; rewrite ?length_map; unfold insertions, entries in *;
      cbn [List.length] in *; lia.
Qed.

Lemma pass_attributes_names_witness :
  exists pa,
    pass_attributes (priv (init_done Sample.env "render" Sample.collision)) =
      Some pa /\
    keys pa = ["ngl_position"; "color"; "ngl_uvcoord"] /\
    Hmap.wf pa.
Proof.
  destruct (pass_attributes_names Sample.env "render" Sample.collision
              (init_done Sample.env "render" Sample.collision))
    as (pa & Hpa & Hwf & _).
  - vm_compute. reflexivity.
  - exists pa. split; [exact Hpa|]. split; [|exact Hwf].
    vm_compute in Hpa. injection Hpa as <-. reflexivity.
Defined.

(** ** The index type, from init to the draw invocation *)

(** X14. At any point [m] of the life of a node whose init succeeded, a
    draw issues an element invocation only when the geometry had an index
    buffer at init, and the index type it passes is the GL type of the
    format that buffer had at init, whatever the buffer and the geometry
    have become since. *)
Theorem element_type_from_init (E0 E : externals) (label : string)
  (m0 m1 m m' : machine) (e : event) (type : Z) :
  render_init E0 label m0 = Ok 0 m1 ->
  later m1 m ->
  render_draw E m = Ok tt m' ->
  In e (events_since m m') ->
  element_type_of e = Some type ->
  exists ib,
    indices_buffer (geometries m0 (geometry (priv m0))) = Some ib /\
    type = gl_type_of_format E0 (data_format (buffers m0 ib)).
Proof.
  intros Hinit Hl Hdraw Hin Hty.
  destruct (render_init_success _ _ _ _ _ Hinit eq_refl) as (_ & -> & _).
  destruct (render_draw_inv _ _ _ Hdraw) as (f & b & Hd & Hb & ->).
  rewrite events_since_emit_all in Hin.
  rewrite (later_draw_table _ _ _ _ Hl) in Hd. injection Hd as <-.
  assert (Hit : indices_type (priv m) =
                match indices_buffer (geometries m0 (geometry (priv m0))) with
                | Some ib => gl_type_of_format E0 (data_format (buffers m0 ib))
                | None => indices_type (priv m0)
                end).
  { rewrite (later_priv _ _ Hl). reflexivity. }
  unfold bind_log, unbind_log, draw_events, draw_call, draw_table,
    has_indices in Hin.
  cbv zeta in Hin. rewrite Hit in Hin.
  destruct (indices_buffer (geometries m0 (geometry (priv m0)))) as [ib|];
    cbn [is_null negb] in Hin;
    destruct (0 <? nb_instances (priv m0)),
      (pass_bind_result E <? 0), (pass_unbind_result E <? 0);
    cbn [app In] in Hin;
    repeat match goal with
      | Hx : _ \/ _ |- _ => destruct Hx as [<-|Hx]
      | Hx : False |- _ => destruct Hx
      end;
    cbn [element_type_of] in Hty;
    first [ discriminate Hty
          | injection Hty as <-; exists ib; split; reflexivity ].
Qed.

(** The next draw of the instanced sample node, after an update, a draw,
    and a change of the format of its index buffer from 7 to 9. *)
Lemma element_type_from_init_witness :
  emitted (render_draw Sample.env) Frames.reformatted =
    [EvPassBind; EvGlBindBuffer GL_ELEMENT_ARRAY_BUFFER 40;
     EvGlDrawElementsInstanced 4 6 7 0 3; EvPassUnbind] /\
  exists ib,
    indices_buffer (geometries Sample.instanced
                               (geometry (priv Sample.instanced))) = Some ib /\
    7 = gl_type_of_format Sample.env
          (data_format (buffers Sample.instanced ib)).
Proof.
  split; [vm_compute; reflexivity|].
  assert (Hup : render_update Sample.env PrimFloat.one
                  (init_done Sample.env "render" Sample.instanced) =
                Ok 0 (after (render_update Sample.env PrimFloat.one)
                            (init_done Sample.env "render" Sample.instanced)))
    by (vm_compute; reflexivity).
  assert (Hdraw : render_draw Sample.env
                    (after (render_update Sample.env PrimFloat.one)
                           (init_done Sample.env "render" Sample.instanced)) =
                  Ok tt Frames.second_frame)
    by (vm_compute; reflexivity).
  apply (element_type_from_init Sample.env Sample.env "render"
           Sample.instanced
           (init_done Sample.env "render" Sample.instanced)
           Frames.reformatted
           (after (render_draw Sample.env) Frames.reformatted)
           (EvGlDrawElementsInstanced 4 6 7 0 3) 7).
  - vm_compute. reflexivity.
  - apply later_scene.
    exact (later_draw _ _ _ _ (later_update _ _ _ _ _ _ (later_init _) Hup)
             Hdraw).
  - vm_compute. reflexivity.
  - vm_compute. right. right. left. reflexivity.
  - reflexivity.
Defined.

(** ** What the pass is initialised with *)

Lemma pass_inits_app l1 l2 : pass_inits (l1 ++ l2) = pass_inits l1 ++ pass_inits l2.
Proof. apply flat_map_app. Qed.

Lemma node_creations_app l1 l2 :
  node_creations (l1 ++ l2) = node_creations l1 ++ node_creations l2.
Proof. apply flat_map_app. Qed.

(** X15. A successful init initialises the pass once, and keeps the
    descriptor it passed: the node's label, a program that is not null
    (the user's, or the one created when the user gave none: the only
    node init ever creates), the user's textures, uniforms and blocks, the
    derived attribute map, and the user's per-instance attributes as they
    are. *)
Theorem pass_descriptor (E : externals) (label : string) (m m' : machine) :
  render_init E label m = Ok 0 m' ->
  exists params p,
    pass_inits (events_since m m') = [params] /\
    pass (priv m') = Some params /\
    params_label params = label /\
    params_program params = Some p /\
    program (priv m') = Some p /\
    params_textures params = textures (priv m) /\
    params_uniforms params = uniforms (priv m) /\
    params_blocks params = blocks (priv m) /\
    params_attributes params = pass_attributes (priv m') /\
    params_instance_attributes params = instance_attributes (priv m) /\
    node_creations (events_since m m') =
      (if is_null (program (priv m)) then [NGL_NODE_PROGRAM E] else []).
Proof.
  intros H.
  destruct (render_init_success _ _ _ _ _ H eq_refl)
    as (_ & -> & _ & _ & _ & _ & Hprog & _).
  assert (Hp : exists p, default_program E (priv m) = Some p).
  { unfold default_program. destruct (program (priv m)) as [p|].
    - exists p. reflexivity.
    - destruct (Hprog eq_refl) as (p & -> & _). exists p. reflexivity. }
  destruct Hp as (p & Hp).
  exists (init_params E label m), p.
  rewrite (events_since_app m (init_done E label m) _ eq_refl).
  rewrite !pass_inits_app, !node_creations_app.
  assert (Hdef : pass_inits (default_program_events E (priv m)) = [] /\
                 node_creations (default_program_events E (priv m)) =
                 (if is_null (program (priv m))
                  then [NGL_NODE_PROGRAM E] else [])).
  { unfold default_program_events.
    destruct (program (priv m)); [split; reflexivity|].
    destruct (node_create_result E (NGL_NODE_PROGRAM E)); split; reflexivity. }
  destruct Hdef as (-> & ->).
  assert (Href : forall o : option node,
             pass_inits match o with Some ib => [EvBufferRef ib] | None => [] end
             = [] /\
             node_creations
               match o with Some ib => [EvBufferRef ib] | None => [] end = []).
  { intros [ib|]; split; reflexivity. }
  destruct (Href (indices_buffer (geometries m (geometry (priv m)))))
    as (-> & ->).
  split; [reflexivity|]. split; [reflexivity|]. split; [reflexivity|].
  split; [exact Hp|]. split; [exact Hp|].
  repeat (split; [reflexivity|]).
  cbn [node_creations flat_map]. rewrite !app_nil_r. reflexivity.
Qed.

Lemma pass_descriptor_witness :
  exists params p,
    pass_inits (events_since Sample.collision
                  (init_done Sample.env "render" Sample.collision)) =
      [params] /\
    params_program params = Some p /\
    p = 100%positive /\
    params_attributes params =
      Some [("ngl_position", 2%positive); ("color", 5%positive);
            ("ngl_uvcoord", 3%positive)].
Proof.
  destruct (pass_descriptor Sample.env "render" Sample.collision
              (init_done Sample.env "render" Sample.collision))
    as (params & p & Hinits & _ & _ & Hp & _ & _ & _ & _ & Hattrs & _).
  - vm_compute. reflexivity.
  - exists params, p. split; [exact Hinits|]. split; [exact Hp|].
    vm_compute in Hinits. injection Hinits as <-.
    split; [|reflexivity].
    vm_compute in Hp. injection Hp as <-. reflexivity.
Defined.

(** ** [render_uninit] on a node that holds no reference *)

(** X16. With the flag clear (a node that was never initialised, or whose
    init failed early), [render_uninit] returns whatever the geometry is,
    also without index buffer: it frees the derived map, uninitialises the
    pass, and that is all; no buffer is released or changed, and the
    parameters, the program, the draw procedure and the flag stay. *)
Theorem render_uninit_without_reference (m : machine) :
  has_indices_buffer_ref (priv m) = 0 ->
  exists m',
    render_uninit m = Ok tt m' /\
    events_since m m' = [EvPassUninit] /\
    buffers m' = buffers m /\
    geometries m' = geometries m /\
    pass_attributes (priv m') = None /\
    pass (priv m') = None /\
    same_params (priv m) (priv m') /\
    program (priv m') = program (priv m) /\
    draw (priv m') = draw (priv m) /\
    has_indices_buffer_ref (priv m') = 0.
Proof.
  intros Hflag. exists (uninit_done m). split.
  - apply render_uninit_run. intros Hn. contradiction.
  - unfold uninit_done, same_params. rewrite Hflag. cbn [Z.eqb].
    split; [apply events_since_app; reflexivity|].
    fields. repeat split. exact Hflag.
Qed.

(** The node that was refused for a count mismatch. *)
Lemma render_uninit_without_reference_witness :
  emitted render_uninit
          (after (render_init Sample.env "render") Sample.stray) =
    [EvPassUninit].
Proof.
  destruct (render_uninit_without_reference
              (after (render_init Sample.env "render") Sample.stray))
    as (m' & Hrun & Hev & _).
  - reflexivity.
  - set (refused := after (render_init Sample.env "render") Sample.stray) in *.
    unfold emitted, after. rewrite Hrun. exact Hev.
Defined.
